(** * The traced user-account service

    A shallow embedding of the five account operations of
    [src/controller/users.controller.js], of the session middleware
    [verifyJWT] (middleware/auth.middleware.js, which this copy of the
    sources holds in [src/index.js], lines 16 to 42), of the [User] model
    (models/users.model.js, held in [unnamed/part_001]) and of
    [src/routes/user.router.js], followed by the properties of the
    specification that were checked against them.

    JavaScript objects are finite maps from property names to values.
    The handlers run in a state-and-exception monad over a [World] that
    holds the database, the tracer's spans and the HTTP response.  The
    database is shared: a script of what its other clients do is part of
    it, and each awaited query lets them move first.  bcryptjs and
    jsonwebtoken are parameters of the model. *)

From Stdlib Require Import ZArith Ascii String List Lia.
From stdpp Require Import base option list gmap strings pretty.

Local Open Scope Z_scope.
Local Open Scope string_scope.
Local Open Scope list_scope.

(** ** JavaScript values and objects *)

Inductive value :=
| JUndefined
| JNull
| JBool (b : bool)
| JNum (n : Z)
| JStr (s : string)
| JId (n : N)        (* a MongoDB ObjectId *)
| JDate (t : Z).     (* a Date, as milliseconds *)

Global Instance value_eq_dec : EqDecision value.
Proof. solve_decision. Defined.

(** A document, a request body, a token payload: a JS object. *)
Abbreviation Doc := (gmap string value).

(** Property access [o.k]: [undefined] when the property is absent. *)
Definition prop (o : Doc) (k : string) : value := default JUndefined (o !! k).

(** [!v] is [negb (truthy v)]. *)
Definition truthy (v : value) : bool :=
  match v with
  | JUndefined | JNull => false
  | JBool b => b
  | JNum n => negb (Z.eqb n 0)
  | JStr s => negb (String.eqb s "")
  | JId _ | JDate _ => true
  end.

(** [v.toString()]; [None] stands for the TypeError on undefined and null.
    A number is printed digit by digit, as JavaScript prints the integers
    it holds exactly (below 2^53 in absolute value); larger numbers and
    fractions are outside [value]. *)
Definition toString (v : value) : option string :=
  match v with
  | JUndefined | JNull => None
  | JBool true => Some "true"
  | JBool false => Some "false"
  | JNum n => Some (pretty n)
  | JStr s => Some s
  | JId n => Some (pretty n)
  | JDate t => Some (pretty t)
  end.

(** Mongoose casts what is written to, or compared with, a [String] path. *)
Definition castString (v : value) : value :=
  match toString v with
  | Some s => JStr s
  | None => v
  end.

(** ** Errors

    Modelled from the spec: the class [ApiError] of
    [src/utils/ApiError.utils.js] is not among the sources; it is built as
    [new ApiError(statusCode, message)] and read through [error.message]. *)
Inductive JsError :=
| ApiError (statusCode : Z) (message : string)
| LibError (name message : string).   (* TypeError, jwt, bcrypt and driver errors *)

Definition message (e : JsError) : string :=
  match e with
  | ApiError _ m => m
  | LibError _ m => m
  end.

Definition statusCode (e : JsError) : option Z :=
  match e with
  | ApiError c _ => Some c
  | LibError _ _ => None
  end.

Definition TypeError (m : string) : JsError := LibError "TypeError" m.

(** ** HTTP responses

    Modelled from the spec: the class [ApiResponse] of
    [src/utils/ApiResponse.utils.js] is not among the sources; the envelope
    is [{status, data, message}] on success and [{error: message}] on
    failure. *)
Inductive Payload :=
| PNull
| PDoc (d : Doc)
| PLogin (accessToken : string) (user : Doc) (refreshToken : string).

Inductive Body :=
| ApiResponse (status : Z) (data : Payload) (msg : string)
| ErrorBody (error : string).

Record Response := mkResponse { res_status : Z; res_body : Body }.

(** ** Spans *)

Record Span := mkSpan {
  span_name : string;
  span_ends : nat;                          (* calls of [end()] *)
  span_attrs : list (string * value);
  span_exceptions : list JsError
}.

(** ** The database and the world a request runs in *)

(** What other clients of the database do while a query is awaited. *)
Inductive Outside :=
| Quiet
| Removes (id : N).  (* the document with this [_id] is removed *)

Record Database := mkDatabase {
  users : list Doc;            (* the User collection, in insertion order *)
  outside : list Outside;      (* one entry consumed by each awaited query *)
  next_id : N                  (* the next ObjectId *)
}.

Record World := mkWorld {
  db : Database;
  spans : list Span;           (* every span started so far; a handle is an index *)
  response : option Response;  (* what [res.status(..).json(..)] sent *)
  clock : Z;                   (* [Date.now()] *)
  verified : list string       (* the tokens handed to [jwt.verify] *)
}.

Definition set_db (d : Database) (w : World) : World :=
  mkWorld d (spans w) (response w) (clock w) (verified w).
Definition set_spans (f : list Span → list Span) (w : World) : World :=
  mkWorld (db w) (f (spans w)) (response w) (clock w) (verified w).
Definition set_response (r : Response) (w : World) : World :=
  mkWorld (db w) (spans w) (Some r) (clock w) (verified w).
Definition log_verified (t : string) (w : World) : World :=
  mkWorld (db w) (spans w) (response w) (clock w) (verified w ++ [t]).

(** ** The monad of handlers: state and exceptions *)

Inductive Completion (A : Type) :=
| Normal (a : A)
| Throw (e : JsError).
Arguments Normal {A} a.
Arguments Throw {A} e.

Definition Js (A : Type) : Type := World → Completion A * World.

Definition ret {A} (a : A) : Js A := λ w, (Normal a, w).

Definition bind {A B} (m : Js A) (k : A → Js B) : Js B :=
  λ w, match m w with
       | (Normal a, w') => k a w'
       | (Throw e, w') => (Throw e, w')
       end.

Definition throw {A} (e : JsError) : Js A := λ w, (Throw e, w).

Definition gets {A} (f : World → A) : Js A := λ w, (Normal (f w), w).
Definition modify (f : World → World) : Js unit := λ w, (Normal tt, f w).

Declare Scope js_scope.
Delimit Scope js_scope with js.
Notation "'let*' x := m 'in' k" := (bind m (λ x, k))
  (at level 100, x name, m at level 99, k at level 200, right associativity) : js_scope.
Notation "m ;;; k" := (bind m (λ _, k))
  (at level 100, k at level 200, right associativity) : js_scope.
Local Open Scope js_scope.

(** [if (o)] on a value that is an object or [null]. *)
Definition non_null {A} (o : option A) : bool :=
  match o with Some _ => true | None => false end.

(** [if (c) throw e;] *)
Definition throw_if (c : bool) (e : JsError) : Js unit :=
  if c then throw e else ret tt.

(** [try { body } catch (error) { handler } finally { cleanup }] *)
Definition try_catch_finally {A} (body : Js A) (handler : JsError → Js A)
    (cleanup : Js unit) : Js A :=
  λ w,
    let '(c1, w1) := body w in
    let '(c2, w2) := match c1 with
                     | Normal a => (Normal a, w1)
                     | Throw e => handler e w1
                     end in
    match cleanup w2 with
    | (Normal _, w3) => (c2, w3)
    | (Throw e, w3) => (Throw e, w3)
    end.

(** [try { body } catch (error) { handler }] *)
Definition try_catch {A} (body : Js A) (handler : JsError → Js A) : Js A :=
  λ w, match body w with
       | (Normal a, w1) => (Normal a, w1)
       | (Throw e, w1) => handler e w1
       end.

(** [v.toString()] as a statement that may raise. *)
Definition to_string (v : value) : Js string :=
  match toString v with
  | Some s => ret s
  | None => throw (TypeError "Cannot read properties of undefined (reading 'toString')")
  end.

(** ** The tracer: [tracer.startSpan], [span.end], [span.setAttribute],
    [span.recordException] *)

(** [tracer.startSpan(name, { parent })].  The options of the tracer have
    no [parent] key, so what the handlers pass there is not read: the
    parent of a span comes from the active context, which belongs to the
    instrumentation of [tracing.js] and is not part of a span here. *)
Definition startSpan (name : string) (parent : option nat) : Js nat :=
  λ w, (Normal (length (spans w)),
        set_spans (λ l, l ++ [mkSpan name 0 [] []]) w).

Definition ended (s : Span) : bool := negb (Nat.eqb (span_ends s) 0).

Definition end_span (s : Span) : Span :=
  mkSpan (span_name s) (S (span_ends s)) (span_attrs s)
         (span_exceptions s).

(** Attributes and exceptions are dropped once the span has ended. *)
Definition add_attribute (k : string) (v : value) (s : Span) : Span :=
  if ended s then s
  else mkSpan (span_name s) (span_ends s)
              (span_attrs s ++ [(k, v)]) (span_exceptions s).

Definition add_exception (e : JsError) (s : Span) : Span :=
  if ended s then s
  else mkSpan (span_name s) (span_ends s) (span_attrs s)
              (span_exceptions s ++ [e]).

Definition span_end (h : nat) : Js unit :=
  modify (set_spans (alter end_span h)).

Definition setAttribute (h : nat) (k : string) (v : value) : Js unit :=
  modify (set_spans (alter (add_attribute k v) h)).

Definition recordException (h : nat) (e : JsError) : Js unit :=
  modify (set_spans (alter (add_exception e) h)).

(** [res.status(code).json(body)] *)
Definition send (code : Z) (b : Body) : Js unit :=
  modify (set_response (mkResponse code b)).

(** ** The libraries under the model: bcryptjs, jsonwebtoken, and the
    process environment *)

Record Libs := mkLibs {
  bcrypt_hash : string → Z → string;                  (* bcrypt.hash(s, rounds) *)
  bcrypt_compare : string → string → bool;            (* bcrypt.compare(s, hash) *)
  jwt_sign : Doc → string → string → Z → string;      (* jwt.sign(payload, secret, {expiresIn}), at a time *)
  jwt_verify : string → string → Z → JsError + Doc    (* jwt.verify(token, secret), at a time *)
}.

Record Env := mkEnv {
  ACCESS_TOKEN_SECRET : string;
  ACCESS_TOKEN_EXPIRY : string;
  REFRESH_TOKEN_SECRET : string;
  REFRESH_TOKEN_EXPIRY : string
}.

(** An object literal: properties whose value is [undefined] are not kept
    when the object is stored or serialised. *)
Definition is_undefined (v : value) : bool :=
  match v with JUndefined => true | _ => false end.

Definition obj (l : list (string * value)) : Doc :=
  list_to_map (List.filter (λ kv, negb (is_undefined kv.2)) l).

(** ** The database, as Mongoose presents it *)

(** A database operation: it runs at once, on the database alone. *)
Definition Db (A : Type) : Type := Database → Completion A * Database.

Definition has_id (id : value) (d : Doc) : bool :=
  bool_decide (d !! "_id" = Some id).

Definition happen (o : Outside) (l : list Doc) : list Doc :=
  match o with
  | Quiet => l
  | Removes n => List.filter (λ d, negb (has_id (JId n) d)) l
  end.

(** The other clients move while the operation is awaited. *)
Definition tick (d : Database) : Database :=
  match outside d with
  | [] => d
  | o :: rest => mkDatabase (happen o (users d)) rest (next_id d)
  end.

(** [await op]: the other clients move, then the operation runs. *)
Definition await {A} (op : Db A) : Js A :=
  λ w, let '(c, d) := op (tick (db w)) in (c, set_db d w).

(** The filters the controller writes: [{ path: v }] and
    [{ $or: [q1, q2] }]. *)
Inductive Query :=
| Is (path : string) (v : value)
| Either (q1 q2 : Query).

Fixpoint matches (q : Query) (d : Doc) : bool :=
  match q with
  | Is path v => bool_decide (d !! path = Some (castString v))
  | Either q1 q2 => matches q1 d || matches q2 d
  end.

(** [.select("-a -b")]: the named paths are left out of the result. *)
Definition select (spec : string) (d : Doc) : Doc :=
  foldr (λ f acc, match f with
                  | String "-"%char path => delete path acc
                  | _ => acc
                  end) d (String.words spec).

(** The unique indexes on [userName] and [email]. *)
Definition unique_conflict (d : Doc) (l : list Doc) : bool :=
  existsb (λ o, negb (bool_decide (o !! "_id" = d !! "_id"))
                && (bool_decide (o !! "userName" = d !! "userName")
                    || bool_decide (o !! "email" = d !! "email"))) l.

Definition duplicate_key : JsError :=
  LibError "MongoServerError" "E11000 duplicate key error".

Definition validation_failed : JsError :=
  LibError "ValidationError" "User validation failed".

(** [required: true] on a [String] path. *)
Definition required (d : Doc) (path : string) : bool :=
  match d !! path with
  | Some (JStr s) => negb (String.eqb s "")
  | _ => false
  end.

Section Service.

Context (lib : Libs) (env : Env).

(** *** The [User] model, [models/users.model.js] *)

(** [userSchema.pre("save", ...)]: the password is hashed when it was
    modified; [None] stands for the error bcrypt raises on a value that
    is not a string. *)
Definition pre_save (modified : list string) (this : Doc) : option Doc :=
  if negb (existsb (String.eqb "password") modified) then Some this
  else match prop this "password" with
       | JStr p => Some (<["password" := JStr (bcrypt_hash lib p 10)]> this)
       | _ => None
       end.

Definition illegal_arguments : JsError := LibError "Error" "Illegal arguments".

(** [userSchema.methods.isPasswordCorrect] *)
Definition isPasswordCorrect (this : Doc) (password : value) : Js bool :=
  match password, prop this "password" with
  | JStr p, JStr h => ret (bcrypt_compare lib p h)
  | _, _ => throw illegal_arguments
  end.

(** [userSchema.methods.generateAccessToken]; the schema has no
    [username] and no [fullName] path, so these are [undefined]. *)
Definition generateAccessToken (this : Doc) : Js string :=
  let* now := gets clock in
  ret (jwt_sign lib
         (obj [("_id", prop this "_id"); ("email", prop this "email");
               ("username", prop this "username");
               ("fullName", prop this "fullName")])
         (ACCESS_TOKEN_SECRET env) (ACCESS_TOKEN_EXPIRY env) now).

(** [userSchema.methods.generateRefreshToken] *)
Definition generateRefreshToken (this : Doc) : Js string :=
  let* now := gets clock in
  ret (jwt_sign lib (obj [("_id", prop this "_id")])
         (REFRESH_TOKEN_SECRET env) (REFRESH_TOKEN_EXPIRY env) now).

(** The document [new User(fields)] builds from the schema: the given
    paths cast to their types, the defaults, the timestamps and the
    version key. *)
Definition new_user (id : N) (now : Z) (fields : Doc) : Doc :=
  obj [("_id", JId id);
       ("userName", castString (prop fields "userName"));
       ("email", castString (prop fields "email"));
       ("password", castString (prop fields "password"));
       ("lastUpdate", JDate now);
       ("registrationDate", prop fields "registrationDate");
       ("deletedAt", JNull);
       ("isDeleted", JBool false);
       ("refreshToken", JNull);
       ("createdAt", JDate now);
       ("updatedAt", JDate now);
       ("__v", JNum 0)].

(** What each query does to the database. *)

(** [User.findOne(filter)] *)
Definition db_findOne (q : Query) : Db (option Doc) :=
  λ d, (Normal (List.find (matches q) (users d)), d).

Definition cast_error : JsError := LibError "CastError" "Cast to ObjectId failed".

(** [User.findById(id)]; [findById(undefined)] finds nothing. *)
Definition db_findById (id : value) : Db (option Doc) :=
  λ d, match id with
       | JId _ => (Normal (List.find (has_id id) (users d)), d)
       | JUndefined | JNull => (Normal None, d)
       | _ => (Throw cast_error, d)
       end.

(** [User.create(fields)], at the time [now] *)
Definition db_create (now : Z) (fields : Doc) : Db Doc :=
  λ d,
    let doc := new_user (next_id d) now fields in
    let d := mkDatabase (users d) (outside d) (next_id d + 1)%N in
    if negb (required doc "userName" && required doc "email" && required doc "password")
    then (Throw validation_failed, d)
    else match pre_save ["password"] doc with
         | None => (Throw illegal_arguments, d)
         | Some doc =>
             if unique_conflict doc (users d) then (Throw duplicate_key, d)
             else (Normal doc, mkDatabase (users d ++ [doc]) (outside d) (next_id d))
         end.

(** [doc.save({ validateBeforeSave: false })] of a document that was
    fetched before: the paths assigned since (written here also when the
    value assigned is the one it had) go to the stored document with the
    same [_id], and [updatedAt] with them. *)
Definition patch (modified : list string) (this : Doc) (now : Z) (stored : Doc) : Doc :=
  foldr (λ path acc, <[path := prop this path]> acc)
        (<["updatedAt" := JDate now]> stored) modified.

Definition not_found : JsError :=
  LibError "DocumentNotFoundError" "No document found for query".

Definition db_save (now : Z) (this : Doc) (modified : list string) : Db unit :=
  λ d, match pre_save modified this with
       | None => (Throw illegal_arguments, d)
       | Some this =>
           if existsb (has_id (prop this "_id")) (users d) then
             (Normal tt,
              mkDatabase (map (λ o, if has_id (prop this "_id") o
                                    then patch modified this now o else o) (users d))
                         (outside d) (next_id d))
           else (Throw not_found, d)
       end.

(** [User.findByIdAndUpdate(id, { userName, email, lastUpdate },
    { new: true, runValidators: true })], at the time [now] *)
Definition updated_user (now : Z) (userName email lastUpdate : value) (o : Doc) : Doc :=
  <["userName" := castString userName]>
    (<["email" := castString email]>
       (<["lastUpdate" := lastUpdate]> (<["updatedAt" := JDate now]> o))).

Definition db_findByIdAndUpdate (now : Z) (id : value) (userName email lastUpdate : value)
  : Db (option Doc) :=
  λ d, match id with
       | JId _ =>
           match List.find (has_id id) (users d) with
           | None => (Normal None, d)
           | Some o =>
               let o' := updated_user now userName email lastUpdate o in
               if negb (required o' "userName" && required o' "email")
               then (Throw validation_failed, d)
               else if unique_conflict o' (users d) then (Throw duplicate_key, d)
               else (Normal (Some o'),
                     mkDatabase (map (λ x, if has_id id x then o' else x) (users d))
                                (outside d) (next_id d))
           end
       | JUndefined | JNull => (Normal None, d)
       | _ => (Throw cast_error, d)
       end.

(** The queries as the handlers await them. *)
Definition User_findOne (q : Query) : Js (option Doc) :=
  await (db_findOne q).
Definition User_findById (id : value) : Js (option Doc) :=
  await (db_findById id).
Definition User_create (fields : Doc) : Js Doc :=
  let* now := gets clock in await (db_create now fields).
Definition User_save (this : Doc) (modified : list string) : Js unit :=
  let* now := gets clock in await (db_save now this modified).
Definition User_findByIdAndUpdate (id : value) (userName email lastUpdate : value)
  : Js (option Doc) :=
  let* now := gets clock in
  await (db_findByIdAndUpdate now id userName email lastUpdate).

(** *** The request, as Express hands it to a handler *)

Record Request := mkRequest {
  body : Doc;                               (* req.body *)
  cookies : option (gmap string string);    (* req.cookies *)
  authorization : option string;            (* req.header("Authorization") *)
  params : gmap string string;              (* req.params *)
  user : option Doc                         (* req.user *)
}.

Definition set_user (u : Doc) (req : Request) : Request :=
  mkRequest (body req) (cookies req) (authorization req) (params req) (Some u).

(** [req.user._id] *)
Definition req_user_id (req : Request) : Js value :=
  match user req with
  | Some u => ret (prop u "_id")
  | None => throw (TypeError "Cannot read properties of undefined (reading '_id')")
  end.

(** [s.replace(pattern, replacement)] with a string pattern: the first
    occurrence only. *)
Fixpoint strip_prefix (p s : string) : option string :=
  match p, s with
  | EmptyString, _ => Some s
  | String a p', String b s' => if Ascii.eqb a b then strip_prefix p' s' else None
  | String _ _, EmptyString => None
  end.

Fixpoint replace (pattern replacement s : string) : string :=
  match strip_prefix pattern s with
  | Some rest => replacement +:+ rest
  | None => match s with
            | EmptyString => EmptyString
            | String a s' => String a (replace pattern replacement s')
            end
  end.

(** *** [middleware/auth.middleware.js]

    [asyncHandler] is not among the sources; an error the middleware
    throws is left as the completion of the run, for Express to answer.
    [next()] is the rest of the route, see [router]. *)

(** [req.cookies?.accessToken || req.header("Authorization")?.replace("Bearer ", "")] *)
Definition request_token (req : Request) : option string :=
  match cookies req ≫= (λ c, c !! "accessToken") with
  | Some (String a s) => Some (String a s)
  | _ => replace "Bearer " "" <$> authorization req
  end.

(** [error?.message || "Invalid Access Token"] *)
Definition forwarded (error : JsError) : string :=
  match message error with
  | EmptyString => "Invalid Access Token"
  | m => m
  end.

Definition verifyJWT (req : Request) : Js Request :=
  try_catch
    (match request_token req with
     | None | Some EmptyString => throw (ApiError 401 "Unauthorized")
     | Some token =>
         let* now := gets clock in
         modify (log_verified token) ;;;
         match jwt_verify lib token (ACCESS_TOKEN_SECRET env) now with
         | inl error => throw error
         | inr decodedToken =>
             let* found := User_findById (prop decodedToken "_id") in
             match select "-password -refreshToken" <$> found with
             | None => throw (ApiError 401 "Invalid access Token")
             | Some user => ret (set_user user req)
             end
         end
     end)
    (λ error, throw (ApiError 401 (forwarded error))).

(** *** [src/controller/users.controller.js] *)

Definition generateAccessAndRefreshTokens (userID : value) : Js (string * string) :=
  try_catch
    (let* found := User_findById userID in
     match found with
     | None => throw (TypeError "Cannot read properties of null (reading 'generateAccessToken')")
     | Some user =>
         let* accessToken := generateAccessToken user in
         let* refreshToken := generateRefreshToken user in
         let user := <["refreshToken" := JStr refreshToken]> user in
         User_save user ["refreshToken"] ;;;
         ret (accessToken, refreshToken)
     end)
    (λ _, throw (ApiError 500 "Error generating access and refresh tokens")).

Definition CreateUser (req : Request) : Js unit :=
  let* span := startSpan "create_user_api" None in
  try_catch_finally
    (let userName := prop (body req) "userName" in
     let email := prop (body req) "email" in
     let password := prop (body req) "password" in
     let* validationSpan := startSpan "validate_user_input" (Some span) in
     (if negb (truthy userName) || negb (truthy email) || negb (truthy password)
      then span_end validationSpan ;;;
           throw (ApiError 400 "Username, email, and password are required")
      else ret tt) ;;;
     span_end validationSpan ;;;
     let* existingUser := User_findOne (Either (Is "userName" userName) (Is "email" email)) in
     throw_if (non_null existingUser)
       (ApiError 400 "User with the given username or email already exists") ;;;
     let* creationSpan := startSpan "create_user_in_db" (Some span) in
     let* now := gets clock in
     let* newUser := User_create (obj [("userName", userName); ("email", email);
                                       ("password", password);
                                       ("registrationDate", JDate now)]) in
     let* id := to_string (prop newUser "_id") in
     setAttribute creationSpan "user.id" (JStr id) ;;;
     span_end creationSpan ;;;
     (* [if (!newUser) throw new ApiError(500, ..)]: a document is truthy *)
     let* retrievalSpan := startSpan "retrieve_created_user" (Some span) in
     let* found := User_findById (prop newUser "_id") in
     let createdUser := select "-password -__v" <$> found in
     span_end retrievalSpan ;;;
     match createdUser with
     | None => throw (ApiError 500 "Failed to retrieve created user")
     | Some createdUser =>
         let* id := to_string (prop createdUser "_id") in
         setAttribute span "user.id" (JStr id) ;;;
         span_end span ;;;
         send 201 (ApiResponse 201 (PDoc createdUser) "User created successfully")
     end)
    (λ error, recordException span error ;;;
              send 400 (ErrorBody (message error)))
    (span_end span).

Definition loginUser (req : Request) : Js unit :=
  let* span := startSpan "login_user_api" None in
  try_catch_finally
    (let* loginSpan := startSpan "login_user_api" (Some span) in
     let email := prop (body req) "email" in
     let password := prop (body req) "password" in
     setAttribute loginSpan "user.email" email ;;;
     let* validationSpan := startSpan "validate_login_input" (Some loginSpan) in
     (if negb (truthy email) || negb (truthy password)
      then span_end validationSpan ;;;
           throw (ApiError 400 "Email and password are required")
      else ret tt) ;;;
     span_end validationSpan ;;;
     let* retrievalSpan := startSpan "retrieve_user_for_login" (Some loginSpan) in
     let* found := User_findOne (Is "email" email) in
     span_end retrievalSpan ;;;
     match found with
     | None => throw (ApiError 401 "Invalid email or password")
     | Some user =>
         let* passwordValidationSpan :=
           startSpan "validate_user_password" (Some loginSpan) in
         let* isPasswordValid := isPasswordCorrect user password in
         setAttribute passwordValidationSpan "password.valid" (JBool isPasswordValid) ;;;
         span_end passwordValidationSpan ;;;
         throw_if (negb isPasswordValid) (ApiError 401 "Invalid email or password") ;;;
         let* id := to_string (prop user "_id") in
         setAttribute loginSpan "user.id" (JStr id) ;;;
         let* tokenSpan := startSpan "generate_tokens_for_login" (Some loginSpan) in
         let* tokens := generateAccessAndRefreshTokens (prop user "_id") in
         span_end tokenSpan ;;;
         span_end loginSpan ;;;
         send 200 (ApiResponse 200 (PLogin tokens.1 user tokens.2) "Login successful")
     end)
    (λ error, recordException span error ;;;
              send 400 (ErrorBody (message error)))
    (span_end span).

Definition logoutUser (req : Request) : Js unit :=
  let* span := startSpan "logout_user_api" None in
  try_catch_finally
    (let* logoutSpan := startSpan "logout_user_api" (Some span) in
     let* userId := req_user_id req in
     let* id := to_string userId in
     setAttribute logoutSpan "user.id" (JStr id) ;;;
     let* retrievalSpan := startSpan "retrieve_user_for_logout" (Some logoutSpan) in
     let* found := User_findById userId in
     span_end retrievalSpan ;;;
     match found with
     | None => throw (ApiError 404 "User not found")
     | Some user =>
         let* tokenClearSpan := startSpan "clear_refresh_token" (Some logoutSpan) in
         let user := <["refreshToken" := JNull]> user in
         User_save user ["refreshToken"] ;;;
         span_end tokenClearSpan ;;;
         span_end logoutSpan ;;;
         send 200 (ApiResponse 200 PNull "Logout successful")
     end)
    (λ error, recordException span error ;;;
              send 400 (ErrorBody (message error)))
    (span_end span).

Definition UpdateUser (req : Request) : Js unit :=
  let* span := startSpan "update_user_api" None in
  try_catch_finally
    (let* updateSpan := startSpan "update_user_api" (Some span) in
     let* userId := req_user_id req in
     let userName := prop (body req) "userName" in
     let email := prop (body req) "email" in
     let* id := to_string userId in
     setAttribute updateSpan "user.id" (JStr id) ;;;
     let* retrievalSpan := startSpan "retrieve_user_for_update" (Some updateSpan) in
     let* found := User_findById userId in
     span_end retrievalSpan ;;;
     throw_if (negb (non_null found)) (ApiError 404 "User not found") ;;;
     let* validationSpan := startSpan "validate_update_input" (Some updateSpan) in
     (if negb (truthy userName) || negb (truthy email)
      then span_end validationSpan ;;;
           throw (ApiError 400 "Username and email are required")
      else ret tt) ;;;
     span_end validationSpan ;;;
     let* updateDatabaseSpan := startSpan "update_user_in_db" (Some updateSpan) in
     let* now := gets clock in
     let* updated := User_findByIdAndUpdate userId userName email (JDate now) in
     let updateUser := select "-password -__v " <$> updated in
     setAttribute updateDatabaseSpan "user.name" userName ;;;
     setAttribute updateDatabaseSpan "user.email" email ;;;
     span_end updateDatabaseSpan ;;;
     match updateUser with
     | None => throw (ApiError 500 "Failed to update user")
     | Some updateUser =>
         span_end updateSpan ;;;
         send 200 (ApiResponse 200 (PDoc updateUser) "User updated successfully")
     end)
    (λ error, recordException span error ;;;
              send 400 (ErrorBody (message error)))
    (span_end span).

Definition deleteUser (req : Request) : Js unit :=
  let* span := startSpan "delete_user_api" None in
  try_catch_finally
    (let* deleteSpan := startSpan "delete_user_api" (Some span) in
     let* userId := req_user_id req in
     let* id := to_string userId in
     setAttribute deleteSpan "user.id" (JStr id) ;;;
     let* retrievalSpan := startSpan "retrieve_user_for_deletion" (Some deleteSpan) in
     let* found := User_findById userId in
     span_end retrievalSpan ;;;
     match found with
     | None => throw (ApiError 404 "User not found")
     | Some user =>
         let* deletionSpan := startSpan "mark_user_as_deleted" (Some deleteSpan) in
         let user := <["isDeleted" := JBool true]> user in
         let* now := gets clock in
         let user := <["deletedAt" := JDate now]> user in
         User_save user ["isDeleted"; "deletedAt"] ;;;
         span_end deletionSpan ;;;
         span_end deleteSpan ;;;
         send 200 (ApiResponse 200 PNull "User deleted successfully")
     end)
    (λ error, recordException span error ;;;
              send 400 (ErrorBody (message error)))
    (span_end span).

(** *** [src/routes/user.router.js] *)

Inductive Route :=
| PostRegister    (* POST /register *)
| PostLogin       (* POST /login *)
| PostLogout      (* POST /logout *)
| PutUpdate       (* PUT /update/:id *)
| DeleteDelete.   (* DELETE /delete/:id *)

Definition router (r : Route) (req : Request) : Js unit :=
  match r with
  | PostRegister => CreateUser req
  | PostLogin => loginUser req
  | PostLogout => let* req := verifyJWT req in logoutUser req
  | PutUpdate => let* req := verifyJWT req in UpdateUser req
  | DeleteDelete => let* req := verifyJWT req in deleteUser req
  end.

End Service.

(** ** Reading a final world *)

Definition run {A} (m : Js A) (w : World) : World := (m w).2.
Definition completion {A} (m : Js A) (w : World) : Completion A := (m w).1.

Definition status (w : World) : option Z := res_status <$> response w.

(** A span is open when [end()] was never called on it. *)
Definition open_spans (w : World) : list Span :=
  List.filter (λ s, negb (ended s)) (spans w).
Definition spans_ended_twice (w : World) : list Span :=
  List.filter (λ s, Nat.ltb 1 (span_ends s)) (spans w).

(** A database nobody else touches, with no span and no response yet. *)
Definition world0 (l : list Doc) : World :=
  mkWorld (mkDatabase l [] (N.of_nat (length l))) [] None 1700000000000 [].

(** ** Stand-ins for the libraries, to run the model on examples *)

Definition toy_sign (payload : Doc) (secret expiry : string) (now : Z) : string :=
  secret +:+ "." +:+ default "" (toString (prop payload "_id")).

Definition toy_verify (token secret : string) (now : Z) : JsError + Doc :=
  match List.find (λ n, String.eqb token (secret +:+ "." +:+ pretty n))
                  (map N.of_nat (seq 0 16)) with
  | Some n => inr (obj [("_id", JId n)])
  | None => inl (LibError "JsonWebTokenError" "invalid signature")
  end.

Definition toy : Libs :=
  mkLibs (λ s _, "$2a$10$" +:+ s)
         (λ s h, String.eqb h ("$2a$10$" +:+ s))
         toy_sign toy_verify.

Definition dotenv : Env := mkEnv "access-secret" "1d" "refresh-secret" "10d".

(** ** Running the handlers symbolically *)

(** The control structure and the tracer are unfolded; the database
    operations, [truthy] and the libraries stay folded, so that the
    hypotheses of a statement can be used as they are written. *)
Ltac js_eval :=
  cbv [run completion status bind ret throw gets modify throw_if
       try_catch try_catch_finally await
       startSpan span_end setAttribute recordException send
       User_findOne User_findById User_create User_save User_findByIdAndUpdate
       req_user_id to_string set_db set_spans set_response log_verified non_null negb orb andb];
  cbn [fst snd db spans response clock verified body user params cookies
       authorization set_user res_status res_body fmap option_fmap option_map].

Ltac js_eval_in H :=
  cbv [run completion status bind ret throw gets modify throw_if
       try_catch try_catch_finally await
       startSpan span_end setAttribute recordException send
       User_findOne User_findById User_create User_save User_findByIdAndUpdate
       req_user_id to_string set_db set_spans set_response log_verified non_null negb orb andb] in H;
  cbn [fst snd db spans response clock verified body user params cookies
       authorization set_user res_status res_body fmap option_fmap option_map] in H.

(** ** A small scenario: the account of alice *)

(** alice as [CreateUser] stores her in an empty collection. *)
Definition alice : Doc :=
  obj [("_id", JId 0); ("userName", JStr "alice"); ("email", JStr "a@x.com");
       ("password", JStr "$2a$10$secret1");
       ("lastUpdate", JDate 1700000000000);
       ("registrationDate", JDate 1700000000000);
       ("deletedAt", JNull); ("isDeleted", JBool false);
       ("refreshToken", JNull);
       ("createdAt", JDate 1700000000000); ("updatedAt", JDate 1700000000000);
       ("__v", JNum 0)].

(** alice after [deleteUser]. *)
Definition alice_deleted : Doc :=
  <["deletedAt" := JDate 1700000000500]> (<["isDeleted" := JBool true]> alice).

Definition plain_request (b : Doc) : Request := mkRequest b None None ∅ None.

(** [POST /register] with alice's details. *)
Definition register_alice : Request :=
  plain_request (obj [("userName", JStr "alice"); ("email", JStr "a@x.com");
                      ("password", JStr "secret1")]).

(** [POST /login] *)
Definition login_request (email password : string) : Request :=
  plain_request (obj [("email", JStr email); ("password", JStr password)]).

(** A request carrying the access token of the account with [_id] 0. *)
Definition bearer_request (b : Doc) (id : string) : Request :=
  mkRequest b None (Some "Bearer access-secret.0") {[ "id" := id ]} None.

(** The same request once the session middleware has resolved the
    account. *)
Definition session_request (account b : Doc) (id : string) : Request :=
  set_user (delete "password" (delete "refreshToken" account)) (bearer_request b id).

(** A database in which the document with [_id] 0 is removed while the
    third query is awaited. *)
Definition racing_world : World :=
  mkWorld (mkDatabase [] [Quiet; Quiet; Removes 0] 0) [] None 1700000000000 [].

(** The document a login fetches: the first one whose email is the
    request's, in the collection as the query finds it. *)
Definition login_fetch (req : Request) (w : World) : option Doc :=
  List.find (matches (Is "email" (prop (body req) "email"))) (users (tick (db w))).

(** The fields [CreateUser] hands to [User.create] at the time [now]. *)
Definition create_fields (req : Request) (now : Z) : Doc :=
  obj [("userName", prop (body req) "userName");
       ("email", prop (body req) "email");
       ("password", prop (body req) "password");
       ("registrationDate", JDate now)].

(** The duplicate check of [CreateUser]. *)
Definition create_check (req : Request) (w : World) : option Doc :=
  List.find (matches (Either (Is "userName" (prop (body req) "userName"))
                         (Is "email" (prop (body req) "email"))))
            (users (tick (db w))).

(** The document the authenticated operations fetch by the caller's id. *)
Definition caller_fetch (id : value) (w : World) : option Doc :=
  List.find (has_id id) (users (tick (db w))).

(** The request comes from the session middleware: [req.user] is a
    document whose [_id] is the ObjectId [n]. *)
Definition authenticated (req : Request) (n : N) : Prop :=
  ∃ u, user req = Some u ∧ prop u "_id" = JId n.

(** The request with other route parameters ([:id]). *)
Definition set_params (ps : gmap string string) (req : Request) : Request :=
  mkRequest (body req) (cookies req) (authorization req) ps (user req).

(** The collection [after] differs from [before] at most in the
    documents whose [_id] is [id]. *)
Definition acts_only_on (id : value) (before after : list Doc) : Prop :=
  ∃ f, after = map (λ x, if has_id id x then f x else x) before.

(** How many times [end()] was called on the span behind a handle. *)
Definition ends_of (w : World) (h : nat) : option nat :=
  span_ends <$> spans w !! h.

(** The reading of C9 that the code does not meet: the account in the
    200 response of a login carries the refresh token issued by that
    login. *)
Definition embeds_issued_refresh_token (w : World) : Prop :=
  ∃ a u r m,
    response w = Some (mkResponse 200 (ApiResponse 200 (PLogin a u r) m))
    ∧ u !! "refreshToken" = Some (JStr r).

(** The reading of C4 that the code does not meet: a login that fetches
    an account marked as deleted does not succeed. *)
Definition login_refuses_deleted (lib : Libs) (env : Env) (req : Request)
    (w : World) : Prop :=
  ∀ u, login_fetch req w = Some u →
       u !! "isDeleted" = Some (JBool true) →
       status (run (loginUser lib env req) w) ≠ Some 200.

(** The reading of C8 that the code does not meet: an authenticated
    update whose body lacks [userName] or [email] is answered with the
    input error. *)
Definition update_refuses_missing_field (req : Request) (w : World) : Prop :=
  (∃ n, authenticated req n) →
  truthy (prop (body req) "userName") = false
  ∨ truthy (prop (body req) "email") = false →
  response (run (UpdateUser req) w)
  = Some (mkResponse 400 (ErrorBody "Username and email are required")).

(** [CreateUser] got past its validation. *)
Definition create_valid (req : Request) : Prop :=
  truthy (prop (body req) "userName") = true
  ∧ truthy (prop (body req) "email") = true
  ∧ truthy (prop (body req) "password") = true.

(** ** The five account operations, taken together *)

Inductive Operation := Create | LoginOp | LogoutOp | UpdateOp | DeleteOp.

Definition operation (lib : Libs) (env : Env) (op : Operation) : Request → Js unit :=
  match op with
  | Create => CreateUser lib
  | LoginOp => loginUser lib env
  | LogoutOp => logoutUser lib
  | UpdateOp => UpdateUser
  | DeleteOp => deleteUser lib
  end.

(** The status each operation sends when it succeeds. *)
Definition success_status (op : Operation) : Z :=
  match op with Create => 201 | _ => 200 end.

(** The top-level span of a run that started in the world [w]. *)
Definition top_span (w final : World) : option Span :=
  spans final !! length (spans w).

(** What every run of an operation leaves behind: it returns, the spans
    of earlier requests and the log of verified tokens are as they were,
    and the top-level span tells a success, with no exception and [ok]
    calls of [end()], from a failure, answered 400 with the message of
    the one exception recorded and a single call of [end()]. *)
Definition answered (status_ok : Z) (ends_ok : nat) (w : World)
    (r : Completion unit * World) : Prop :=
  r.1 = Normal tt
  ∧ take (length (spans w)) (spans r.2) = spans w
  ∧ verified r.2 = verified w
  ∧ ∃ root, top_span w r.2 = Some root
      ∧ ((status r.2 = Some status_ok
          ∧ span_exceptions root = [] ∧ span_ends root = ends_ok)
         ∨ (∃ e, response r.2 = Some (mkResponse 400 (ErrorBody (message e)))
                 ∧ span_exceptions root = [e] ∧ span_ends root = 1%nat)).

(** A database in which alice is removed while the second query is
    awaited. *)
Definition vanishing_world : World :=
  mkWorld (mkDatabase [alice] [Quiet; Removes 0] 1) [] None 1700000000000 [].

(** A request with both a cookie and a header. *)
Definition cookie_request : Request :=
  mkRequest ∅ (Some {[ "accessToken" := "from-cookie" ]})
            (Some "Bearer from-header") ∅ None.

(** Two documents of the same account, with the same password hash. *)
Definition same_account (a b : Doc) : Prop :=
  a !! "_id" = b !! "_id" ∧ a !! "password" = b !! "password".

(** The collection [after] holds the accounts of [before], one for one. *)
Definition same_accounts (before after : list Doc) : Prop :=
  Forall2 same_account before after.

(** The collection [after] holds a document for each one of [before],
    with its [_id], and no other. *)
Definition same_ids (before after : list Doc) : Prop :=
  Forall2 (λ a b : Doc, a !! "_id" = b !! "_id") before after.

(** ** Tactics for the runs *)

(** Case analysis on what the next step of a run returned. *)
Ltac js_case H :=
  match type of H with
  | context [match ?x with _ => _ end] =>
      lazymatch x with
      | context [match _ with _ => _ end] => fail
      | _ => destruct x eqn:?; js_eval_in H; try discriminate H; js_eval
      end
  end.

Ltac js_case_goal :=
  match goal with
  | |- context [match ?x with _ => _ end] =>
      lazymatch x with
      | context [match _ with _ => _ end] => fail
      | _ => destruct x eqn:?; js_eval
      end
  end.

(** Looking a span up by its handle in the spans of a final world. *)
Ltac norm_length :=
  repeat (progress (rewrite ?length_alter, ?length_app)); cbn [length].

Ltac span_lookup :=
  unfold ends_of; cbn [spans];
  repeat first
    [ progress norm_length
    | rewrite list_lookup_alter_eq
    | rewrite list_lookup_alter_ne by lia
    | rewrite list_lookup_middle by (norm_length; lia)
    | rewrite lookup_app_l by (norm_length; lia) ].

Section Properties.

Context (lib : Libs) (env : Env).

(** *** Objects and documents *)

Lemma obj_lookup_head (k : string) (v : value) (l : list (string * value)) :
  is_undefined v = false → obj ((k, v) :: l) !! k = Some v.
Proof.
  intros Hv. unfold obj. cbn [List.filter snd]. rewrite Hv. cbn [negb list_to_map fst snd].
  apply lookup_insert_eq.
Qed.

Lemma obj_lookup_tail (k k' : string) (v : value) (l : list (string * value)) :
  k ≠ k' → obj ((k', v) :: l) !! k = obj l !! k.
Proof.
  intros Hne. unfold obj. cbn [List.filter snd].
  destruct (negb (is_undefined v)); [| done].
  by apply lookup_insert_ne.
Qed.

(** *** Truthy values are written as non-empty strings *)

Lemma pretty_N_go_nonempty (x : N) (s : string) :
  s ≠ "" → pretty_N_go x s ≠ "".
Proof.
  revert s. induction (N.lt_wf_0 x) as [x _ IH]. intros s Hs.
  destruct (decide (x = 0)%N) as [-> | Hx].
  - by rewrite pretty_N_go_0.
  - rewrite pretty_N_go_step by lia. apply IH; [| done].
    apply N.div_lt; lia.
Qed.

Lemma pretty_N_nonempty (x : N) : pretty x ≠ "".
Proof.
  unfold pretty, pretty_N. destruct (decide (x = 0)%N); [done |].
  rewrite pretty_N_go_step by lia. by apply pretty_N_go_nonempty.
Qed.

Lemma pretty_Z_nonempty (x : Z) : pretty x ≠ "".
Proof.
  unfold pretty, pretty_Z. destruct x; [done | apply pretty_N_nonempty | done].
Qed.

Lemma truthy_castString (v : value) :
  truthy v = true → ∃ s, castString v = JStr s ∧ s ≠ "".
Proof.
  unfold castString. destruct v as [| | [] | n | s | n | t]; cbn; try discriminate; intros H.
  - by exists "true".
  - exists (pretty n). split; [done | apply pretty_Z_nonempty].
  - exists s. split; [done |]. intros ->. discriminate H.
  - exists (pretty n). split; [done | apply pretty_N_nonempty].
  - exists (pretty t). split; [done | apply pretty_Z_nonempty].
Qed.

Lemma truthy_defined (v : value) : truthy v = true → is_undefined v = false.
Proof. by destruct v. Qed.

Lemma pre_save_password (this doc : Doc) :
  pre_save lib ["password"] this = Some doc →
  ∃ p, doc = <["password" := JStr (bcrypt_hash lib p 10)]> this.
Proof.
  unfold pre_save. cbn [existsb String.eqb Ascii.eqb Bool.eqb orb negb].
  destruct (prop this "password"); try discriminate.
  intros [= <-]. eauto.
Qed.

Lemma db_create_id (now : Z) (fields u : Doc) (d d' : Database) :
  db_create lib now fields d = (Normal u, d') → prop u "_id" = JId (next_id d).
Proof.
  unfold db_create. cbn [users next_id outside].
  destruct (negb _); [discriminate |].
  destruct (pre_save _ _ _) as [doc |] eqn:Hpre; [| discriminate].
  destruct (unique_conflict _ _); [discriminate |].
  intros [= <- _]. apply pre_save_password in Hpre as [p ->].
  unfold prop, new_user. rewrite lookup_insert_ne by done.
  by rewrite obj_lookup_head.
Qed.

Lemma prop_lookup (o : Doc) (k : string) (v : value) :
  prop o k = v → v ≠ JUndefined → o !! k = Some v.
Proof. unfold prop. destruct (o !! k); cbn; congruence. Qed.

Lemma prop_insert_ne (o : Doc) (k k' : string) (v : value) :
  k ≠ k' → prop (<[k' := v]> o) k = prop o k.
Proof. intros. unfold prop. by rewrite lookup_insert_ne. Qed.

Lemma prop_insert_eq (o : Doc) (k : string) (v : value) :
  prop (<[k := v]> o) k = v.
Proof. unfold prop. by rewrite lookup_insert_eq. Qed.

Lemma has_id_prop (id : value) (o : Doc) : has_id id o = true → prop o "_id" = id.
Proof.
  unfold has_id, prop. intros H%bool_decide_eq_true. by rewrite H.
Qed.

(** *** What the queries return *)

Lemma db_findById_found (id : value) (d d' : Database) (g : Doc) :
  db_findById id d = (Normal (Some g), d') →
  d' = d ∧ has_id id g = true ∧ g ∈ users d ∧ List.find (has_id id) (users d) = Some g.
Proof.
  unfold db_findById. destruct id; try discriminate.
  intros [= Hfind <-]. repeat split; [| | done].
  - by apply find_some in Hfind as [_ ?].
  - apply find_some in Hfind as [? _]. by apply list_elem_of_In.
Qed.

Lemma db_findById_db (id : value) (d d' : Database) (c : Completion (option Doc)) :
  db_findById id d = (c, d') → d' = d.
Proof. unfold db_findById. destruct id; by intros [= _ <-]. Qed.

Lemma pre_save_other (modified : list string) (this : Doc) :
  existsb (String.eqb "password") modified = false →
  pre_save lib modified this = Some this.
Proof. unfold pre_save. by intros ->. Qed.

Lemma db_save_written (now : Z) (this : Doc) (modified : list string)
    (d d' : Database) (c : unit) :
  existsb (String.eqb "password") modified = false →
  db_save lib now this modified d = (Normal c, d') →
  users d' = map (λ o, if has_id (prop this "_id") o
                       then patch modified this now o else o) (users d)
  ∧ existsb (has_id (prop this "_id")) (users d) = true.
Proof.
  intros Hmod. unfold db_save. rewrite (pre_save_other _ _ Hmod).
  destruct (existsb _ (users d)); [| discriminate].
  by intros [= _ <-].
Qed.

Lemma tick_quiet (d : Database) : outside d = [] → tick d = d.
Proof. unfold tick. by intros ->. Qed.

Lemma find_some_elem {A} (f : A → bool) (l : list A) (x : A) :
  x ∈ l → f x = true → ∃ y, List.find f l = Some y.
Proof.
  intros Hx%list_elem_of_In Hf. destruct (List.find f l) eqn:Hfind; [eauto |].
  by rewrite (find_none _ _ Hfind x Hx) in Hf.
Qed.

Lemma find_existsb {A} (f : A → bool) (l : list A) (x : A) :
  List.find f l = Some x → existsb f l = true.
Proof. intros [? ?]%find_some. apply existsb_exists. eauto. Qed.

Lemma lookup_prop (o : Doc) (k : string) (v : value) :
  o !! k = Some v → prop o k = v.
Proof. unfold prop. by intros ->. Qed.

Lemma acts_only_on_refl (id : value) (l : list Doc) : acts_only_on id l l.
Proof.
  exists (λ x, x). rewrite <- (map_id l) at 1. apply map_ext.
  intros x. by destruct (has_id id x).
Qed.

Lemma db_findByIdAndUpdate_acts (now : Z) (id a b c : value) (d d' : Database)
    (r : Completion (option Doc)) :
  db_findByIdAndUpdate now id a b c d = (r, d') →
  acts_only_on id (users d) (users d').
Proof.
  unfold db_findByIdAndUpdate.
  destruct id; try (intros [= _ <-]; apply acts_only_on_refl).
  destruct (List.find _ _) as [o |]; [| intros [= _ <-]; apply acts_only_on_refl].
  destruct (negb _); [intros [= _ <-]; apply acts_only_on_refl |].
  destruct (unique_conflict _ _); intros [= _ <-]; [apply acts_only_on_refl |].
  by eexists (λ _, _).
Qed.

Lemma db_findByIdAndUpdate_id (now : Z) (id a b c : value) (d d' : Database)
    (o' : Doc) :
  db_findByIdAndUpdate now id a b c d = (Normal (Some o'), d') →
  o' !! "_id" = Some id.
Proof.
  unfold db_findByIdAndUpdate.
  destruct id; try discriminate;
    (destruct (List.find _ _) as [o |] eqn:Hfind; [| discriminate]);
    (destruct (negb _); [discriminate |]);
    (destruct (unique_conflict _ _); [discriminate |]);
    intros [= <- _]; apply find_some in Hfind as [_ Hid%bool_decide_eq_true];
    unfold updated_user; by rewrite !lookup_insert_ne.
Qed.

Lemma db_save_acts (now : Z) (this : Doc) (modified : list string)
    (d d' : Database) (r : Completion unit) :
  existsb (String.eqb "password") modified = false →
  db_save lib now this modified d = (r, d') →
  acts_only_on (prop this "_id") (users d) (users d').
Proof.
  intros Hmod. unfold db_save. rewrite (pre_save_other _ _ Hmod).
  destruct (existsb _ (users d)); intros [= _ <-]; [| apply acts_only_on_refl].
  by eexists (λ o, _).
Qed.

Lemma patch_lookup (modified : list string) (this : Doc) (now : Z) (o : Doc)
    (k : string) :
  k ∈ modified → patch modified this now o !! k = Some (prop this k).
Proof.
  unfold patch. induction modified as [| m ms IH]; [by intros ?%elem_of_nil |].
  cbn [foldr]. destruct (decide (m = k)) as [-> | Hne].
  - intros _. apply lookup_insert_eq.
  - intros [? | ?]%elem_of_cons; [congruence |].
    rewrite lookup_insert_ne by done. by apply IH.
Qed.

(** After a [save] every stored document with the [_id] of [this] has
    the modified paths as [this] had them. *)
Lemma db_save_field (now : Z) (this : Doc) (modified : list string)
    (d d' : Database) (c : unit) (k : string) (x : Doc) :
  existsb (String.eqb "password") modified = false →
  db_save lib now this modified d = (Normal c, d') →
  k ∈ modified →
  x ∈ users d' → has_id (prop this "_id") x = true →
  x !! k = Some (prop this k).
Proof.
  intros Hmod Hsave Hk Hx Hid.
  apply db_save_written in Hsave as [Hsaved _]; [| done].
  rewrite Hsaved in Hx. apply list_elem_of_fmap in Hx as (o & -> & _).
  destruct (has_id (prop this "_id") o) eqn:Ho; [| congruence].
  by apply patch_lookup.
Qed.

Lemma select_created (u : Doc) :
  select "-password -__v" u = delete "password" (delete "__v" u).
Proof. reflexivity. Qed.

Lemma select_updated (u : Doc) :
  select "-password -__v " u = delete "password" (delete "__v" u).
Proof. reflexivity. Qed.

Lemma select_session (u : Doc) :
  select "-password -refreshToken" u = delete "password" (delete "refreshToken" u).
Proof. reflexivity. Qed.

(** *** A valid request with a new name and a new email is created *)

Lemma create_fields_props (req : Request) (now : Z) :
  create_valid req →
  prop (create_fields req now) "userName" = prop (body req) "userName"
  ∧ prop (create_fields req now) "email" = prop (body req) "email"
  ∧ prop (create_fields req now) "password" = prop (body req) "password".
Proof.
  intros (Hu%truthy_defined & He%truthy_defined & Hp%truthy_defined).
  unfold create_fields. repeat apply conj.
  - unfold prop at 1. by rewrite obj_lookup_head.
  - unfold prop at 1. rewrite obj_lookup_tail by done. by rewrite obj_lookup_head.
  - unfold prop at 1. rewrite !obj_lookup_tail by done. by rewrite obj_lookup_head.
Qed.

Lemma non_empty_eqb (s : string) : s ≠ "" → negb (String.eqb s "") = true.
Proof. intros Hs. by destruct (String.eqb_spec s ""). Qed.

Lemma db_create_ok (now : Z) (fields : Doc) (d : Database) :
  truthy (prop fields "userName") = true →
  truthy (prop fields "email") = true →
  truthy (prop fields "password") = true →
  List.find (matches (Either (Is "userName" (prop fields "userName"))
                         (Is "email" (prop fields "email")))) (users d) = None →
  ∃ doc, db_create lib now fields d
         = (Normal doc, mkDatabase (users d ++ [doc]) (outside d) (next_id d + 1)%N)
         ∧ has_id (JId (next_id d)) doc = true.
Proof.
  intros (su & Hsu & Hsu')%truthy_castString (se & Hse & Hse')%truthy_castString
         (sp & Hsp & Hsp')%truthy_castString Hnone.
  unfold db_create. cbn [users outside next_id].
  set (doc := new_user (next_id d) now fields).
  assert (doc !! "_id" = Some (JId (next_id d))) as Hid
    by (by apply obj_lookup_head).
  assert (doc !! "userName" = Some (castString (prop fields "userName"))) as Hname.
  { unfold doc, new_user. rewrite obj_lookup_tail by done.
    apply obj_lookup_head. by rewrite Hsu. }
  assert (doc !! "email" = Some (castString (prop fields "email"))) as Hemail.
  { unfold doc, new_user. rewrite !obj_lookup_tail by done.
    apply obj_lookup_head. by rewrite Hse. }
  assert (doc !! "password" = Some (JStr sp)) as Hpw.
  { unfold doc, new_user. rewrite !obj_lookup_tail by done.
    rewrite Hsp. by apply obj_lookup_head. }
  unfold required. rewrite Hname, Hemail, Hpw, Hsu, Hse.
  rewrite !non_empty_eqb by done. cbn [andb negb].
  unfold pre_save. cbn [existsb String.eqb Ascii.eqb Bool.eqb orb negb].
  rewrite (lookup_prop _ _ _ Hpw).
  set (doc' := <["password" := _]> doc).
  assert (unique_conflict doc' (users d) = false) as ->.
  { destruct (unique_conflict doc' (users d)) eqn:Hconflict; [| done].
    apply existsb_exists in Hconflict as (o & Hin & Ho).
    apply andb_prop in Ho as [_ Ho].
    pose proof (find_none _ _ Hnone o Hin) as Hmiss. cbn [matches] in Hmiss.
    unfold doc' in Ho. rewrite !lookup_insert_ne in Ho by done.
    rewrite Hname, Hemail in Ho. congruence. }
  exists doc'. split; [done |].
  unfold has_id, doc'. rewrite lookup_insert_ne by done. by apply bool_decide_eq_true.
Qed.


(** *** What [CreateUser] answers *)

Lemma prop_delete_ne (o : Doc) (k k' : string) :
  k ≠ k' → prop (delete k' o) k = prop o k.
Proof. intros. unfold prop. by rewrite lookup_delete_ne. Qed.

Lemma CreateUser_201_payload (req : Request) (w : World) :
  status (run (CreateUser lib req) w) = Some 201 →
  ∃ d, response (run (CreateUser lib req) w)
       = Some (mkResponse 201 (ApiResponse 201 (PDoc d) "User created successfully"))
       ∧ d !! "password" = None ∧ d !! "__v" = None.
Proof.
  unfold CreateUser. js_eval. intros H.
  repeat js_case H. js_eval.
  match goal with
  | Hsel : select _ <$> ?o = Some ?g |- _ =>
      destruct o as [u |]; [injection Hsel as <- | discriminate Hsel]
  end.
  eexists. split; [reflexivity |]. rewrite select_created.
  split; [apply lookup_delete_eq |].
  rewrite lookup_delete_ne by done. apply lookup_delete_eq.
Qed.

Lemma CreateUser_valid_unique_status (req : Request) (w : World) :
  create_valid req →
  create_check req w = None →
  outside (db w) = [] →
  status (run (CreateUser lib req) w) = Some 201.
Proof.
  intros Hvalid Hcheck Hquiet.
  destruct (create_fields_props req (clock w) Hvalid) as (Hpu & Hpe & Hpp).
  destruct Hvalid as (Hu & He & Hp).
  unfold create_check in Hcheck. rewrite (tick_quiet _ Hquiet) in Hcheck.
  destruct (db_create_ok (clock w) (create_fields req (clock w)) (db w))
    as (doc & Hcreate & Hdoc); [by rewrite ?Hpu, ?Hpe, ?Hpp .. |].
  unfold create_fields in Hcreate.
  unfold CreateUser. js_eval. rewrite Hu, He, Hp.
  unfold db_findOne. js_eval. rewrite !(tick_quiet _ Hquiet), Hcheck. js_eval.
  rewrite !(tick_quiet _ Hquiet), Hcreate. js_eval. rewrite (has_id_prop _ _ Hdoc).
  cbv [toString]. js_eval.
  unfold tick at 1. cbn [outside users next_id]. rewrite Hquiet.
  unfold db_findById. cbn [users].
  destruct (find_some_elem (has_id (JId (next_id (db w)))) (users (db w) ++ [doc]) doc)
    as (found & Hfound); [apply elem_of_app; right; apply list_elem_of_here | done |].
  rewrite Hfound. js_eval.
  apply find_some in Hfound as [_ Hid%has_id_prop].
  rewrite select_created, !prop_delete_ne, Hid by done.
  reflexivity.
Qed.

(** *** The claims *)

(** C1, as the code has it.  The spans are not each ended once.  When
    [CreateUser] answers 201, [end()] was called twice on its top-level
    span, before the response and in the [finally] block.  When a login
    is refused for its credentials, the child span [login_user_api],
    whose handle follows the top-level one, is never ended. *)
Theorem spans_not_ended_exactly_once (req : Request) (w : World) :
  (status (run (CreateUser lib req) w) = Some 201 →
   ends_of (run (CreateUser lib req) w) (length (spans w)) = Some 2%nat)
  ∧ (truthy (prop (body req) "email") = true →
     truthy (prop (body req) "password") = true →
     (login_fetch req w = None
      ∨ ∃ u p h, login_fetch req w = Some u
                 ∧ prop (body req) "password" = JStr p
                 ∧ prop u "password" = JStr h
                 ∧ bcrypt_compare lib p h = false) →
     ends_of (run (loginUser lib env req) w) (S (length (spans w))) = Some 0%nat).
Proof.
  split.
  - unfold CreateUser. js_eval. intros H. repeat js_case H.
    span_lookup. reflexivity.
  - intros He Hp Hcase. unfold login_fetch in Hcase.
    replace (S (length (spans w))) with (length (spans w) + 1)%nat by lia.
    unfold loginUser. js_eval. rewrite He, Hp. unfold db_findOne. js_eval.
    destruct Hcase as [Hnone | (u & p & h & Hsome & Hpw & Hhash & Hcmp)].
    + rewrite Hnone. js_eval. span_lookup. reflexivity.
    + rewrite Hsome. unfold isPasswordCorrect. rewrite Hpw, Hhash.
      js_eval. rewrite Hcmp. js_eval. span_lookup. reflexivity.
Qed.

(** C2. A login whose email matches no account, and a login whose
    password does not verify against the stored hash, get the same
    response, which carries a message and no account data; its status
    is 400, not the 401 of the error that was thrown. *)
Theorem loginUser_invalid_credentials (req : Request) (w : World) :
  truthy (prop (body req) "email") = true →
  truthy (prop (body req) "password") = true →
  (login_fetch req w = None
   ∨ ∃ u p h, login_fetch req w = Some u
              ∧ prop (body req) "password" = JStr p
              ∧ prop u "password" = JStr h
              ∧ bcrypt_compare lib p h = false) →
  response (run (loginUser lib env req) w)
  = Some (mkResponse 400 (ErrorBody "Invalid email or password")).
Proof.
  intros He Hp Hcase. unfold login_fetch in Hcase.
  unfold loginUser. js_eval. rewrite He, Hp.
  unfold db_findOne. js_eval.
  destruct Hcase as [Hnone | (u & p & h & Hsome & Hpw & Hhash & Hcmp)].
  - rewrite Hnone. reflexivity.
  - rewrite Hsome. unfold isPasswordCorrect. rewrite Hpw, Hhash.
    js_eval. rewrite Hcmp. reflexivity.
Qed.

(** C3. When a create request has passed validation and the duplicate
    check, the account was created, and fetching it again finds nothing,
    the response carries the message of the internal error and the
    status 400, not the 500 of the error that was thrown. *)
Theorem CreateUser_refetch_empty (req : Request) (w : World)
    (newUser : Doc) (d d' : Database) :
  create_valid req →
  create_check req w = None →
  db_create lib (clock w) (create_fields req (clock w)) (tick (tick (db w)))
  = (Normal newUser, d) →
  db_findById (prop newUser "_id") (tick d) = (Normal None, d') →
  response (run (CreateUser lib req) w)
  = Some (mkResponse 400 (ErrorBody "Failed to retrieve created user")).
Proof.
  intros (Hu & He & Hp) Hcheck Hcreate Hfetch.
  unfold create_check in Hcheck. unfold create_fields in Hcreate.
  unfold CreateUser. js_eval. rewrite Hu, He, Hp.
  unfold db_findOne. js_eval. rewrite Hcheck.
  js_eval. rewrite Hcreate. js_eval. rewrite (db_create_id _ _ _ _ _ Hcreate) in Hfetch |- *.
  cbv [to_string toString]. js_eval. rewrite Hfetch. reflexivity.
Qed.

(** C4, as the code has it.  The [isDeleted] flag is read nowhere: an
    account that carries it is found by login, which succeeds with the
    right password; the session middleware resolves it; and logout,
    update and delete, run for it, go through. *)
Theorem soft_deleted_account_is_served (w : World) (u : Doc) (n : N) :
  outside (db w) = [] →
  u !! "isDeleted" = Some (JBool true) →
  u !! "_id" = Some (JId n) →
  (∀ req p h,
     truthy (prop (body req) "email") = true →
     truthy (prop (body req) "password") = true →
     login_fetch req w = Some u →
     prop (body req) "password" = JStr p →
     u !! "password" = Some (JStr h) →
     bcrypt_compare lib p h = true →
     ∃ a r, response (run (loginUser lib env req) w)
            = Some (mkResponse 200 (ApiResponse 200 (PLogin a u r) "Login successful")))
  ∧ (∀ req t decoded,
       request_token req = Some t → t ≠ "" →
       jwt_verify lib t (ACCESS_TOKEN_SECRET env) (clock w) = inr decoded →
       prop decoded "_id" = JId n →
       caller_fetch (JId n) w = Some u →
       completion (verifyJWT lib env req) w
       = Normal (set_user (delete "password" (delete "refreshToken" u)) req))
  ∧ (∀ req,
       authenticated req n →
       caller_fetch (JId n) w = Some u →
       status (run (logoutUser lib req) w) = Some 200
       ∧ status (run (deleteUser lib req) w) = Some 200
       ∧ (∀ updated d,
            truthy (prop (body req) "userName") = true →
            truthy (prop (body req) "email") = true →
            db_findByIdAndUpdate (clock w) (JId n) (prop (body req) "userName")
              (prop (body req) "email") (JDate (clock w)) (db w)
            = (Normal (Some updated), d) →
            status (run (UpdateUser req) w) = Some 200)).
Proof.
  intros Hquiet Hdel Hid. repeat apply conj.
  - intros req p h He Hp Hfetch Hpw Hhash Hcmp.
    unfold login_fetch in Hfetch. rewrite (tick_quiet _ Hquiet) in Hfetch.
    unfold loginUser, generateAccessAndRefreshTokens, generateAccessToken,
      generateRefreshToken, isPasswordCorrect.
    js_eval. rewrite He, Hp. unfold db_findOne. js_eval.
    rewrite !(tick_quiet _ Hquiet), Hfetch, Hpw, (lookup_prop _ _ _ Hhash).
    js_eval. rewrite Hcmp, (lookup_prop _ _ _ Hid). cbv [toString]. js_eval.
    unfold db_findById. js_eval. rewrite !(tick_quiet _ Hquiet).
    apply find_some in Hfetch as [Hin _].
    destruct (find_some_elem (has_id (JId n)) (users (db w)) u) as [u' Hu'];
      [by apply list_elem_of_In | by apply bool_decide_eq_true |].
    rewrite Hu'. js_eval.
    unfold db_save. rewrite pre_save_other by reflexivity.
    rewrite (prop_insert_ne _ "_id" "refreshToken") by done.
    apply find_some in Hu' as Hu''. destruct Hu'' as [_ Hidu'].
    rewrite (has_id_prop _ _ Hidu'), !(tick_quiet _ Hquiet),
      (find_existsb _ _ _ Hu').
    js_eval. eauto.
  - intros req t decoded Htok Ht Hv Hdec Hfetch. unfold caller_fetch in Hfetch.
    unfold verifyJWT. rewrite Htok. destruct t; [done |]. js_eval.
    rewrite Hv. js_eval.
    rewrite Hdec. unfold db_findById. js_eval. by rewrite Hfetch.
  - intros req (cu & Hcu & Hcid) Hfetch. unfold caller_fetch in Hfetch.
    rewrite (tick_quiet _ Hquiet) in Hfetch.
    pose proof (find_existsb _ _ _ Hfetch) as Hex.
    apply find_some in Hfetch as Hu'. destruct Hu' as [_ Hidu].
    repeat apply conj.
    + unfold logoutUser. js_eval. rewrite Hcu. js_eval. rewrite Hcid.
      cbv [toString db_findById]. js_eval.
      rewrite !(tick_quiet _ Hquiet), Hfetch. js_eval.
      unfold db_save. rewrite pre_save_other by reflexivity.
      rewrite (prop_insert_ne _ "_id" "refreshToken") by done.
      rewrite (has_id_prop _ _ Hidu), !(tick_quiet _ Hquiet), Hex.
      reflexivity.
    + unfold deleteUser. js_eval. rewrite Hcu. js_eval. rewrite Hcid.
      cbv [toString db_findById]. js_eval.
      rewrite !(tick_quiet _ Hquiet), Hfetch. js_eval.
      unfold db_save. rewrite pre_save_other by reflexivity.
      rewrite (prop_insert_ne _ "_id" "deletedAt") by done.
      rewrite (prop_insert_ne _ "_id" "isDeleted") by done.
      rewrite (has_id_prop _ _ Hidu), !(tick_quiet _ Hquiet), Hex.
      reflexivity.
    + intros updated d Hn He Hupd.
      unfold UpdateUser. js_eval. rewrite Hcu. js_eval. rewrite Hcid.
      cbv [toString db_findById]. js_eval.
      rewrite !(tick_quiet _ Hquiet), Hfetch. js_eval. rewrite Hn, He.
      js_eval. rewrite !(tick_quiet _ Hquiet), Hupd. reflexivity.
Qed.

(** C5. When the caller's account is not found at the fetch step,
    logout, update and delete answer with the message of the 404 error
    that was thrown, under the status 400. *)
Theorem account_vanished (req : Request) (n : N) (w : World) :
  authenticated req n →
  caller_fetch (JId n) w = None →
  response (run (logoutUser lib req) w)
  = Some (mkResponse 400 (ErrorBody "User not found"))
  ∧ response (run (UpdateUser req) w)
    = Some (mkResponse 400 (ErrorBody "User not found"))
  ∧ response (run (deleteUser lib req) w)
    = Some (mkResponse 400 (ErrorBody "User not found")).
Proof.
  intros (u & Hu & Hid) Hfetch. unfold caller_fetch in Hfetch.
  repeat split.
  - unfold logoutUser. js_eval. rewrite Hu. js_eval. rewrite Hid.
    cbv [to_string toString db_findById]. js_eval. rewrite Hfetch. reflexivity.
  - unfold UpdateUser. js_eval. rewrite Hu. js_eval. rewrite Hid.
    cbv [to_string toString db_findById]. js_eval. rewrite Hfetch. reflexivity.
  - unfold deleteUser. js_eval. rewrite Hu. js_eval. rewrite Hid.
    cbv [to_string toString db_findById]. js_eval. rewrite Hfetch. reflexivity.
Qed.

(** C6. Whenever [CreateUser] answers 201, the account in the response
    has no [password] field and no [__v] field.  And it does answer 201
    when the three fields are given, no account has the name or the
    email, and nobody else touches the database meanwhile. *)
Theorem CreateUser_created_has_no_secrets (req : Request) (w : World) :
  (status (run (CreateUser lib req) w) = Some 201 →
   ∃ d, response (run (CreateUser lib req) w)
        = Some (mkResponse 201 (ApiResponse 201 (PDoc d) "User created successfully"))
        ∧ d !! "password" = None ∧ d !! "__v" = None)
  ∧ (create_valid req → create_check req w = None → outside (db w) = [] →
     status (run (CreateUser lib req) w) = Some 201).
Proof.
  split; [apply CreateUser_201_payload | apply CreateUser_valid_unique_status].
Qed.

(** C7. The session middleware fails with a 401 error when the token
    is missing, and then hands nothing to [jwt.verify]; when
    [jwt.verify] fails; and when no account has the id of the token.
    Otherwise it passes on the request with the account found, without
    its [password] and [refreshToken] fields.  It fails in no other
    way. *)
Theorem verifyJWT_outcomes (req : Request) (w : World) :
  (request_token req = None ∨ request_token req = Some "" →
   verifyJWT lib env req w = (Throw (ApiError 401 "Unauthorized"), w)
   ∧ verified (run (verifyJWT lib env req) w) = verified w)
  ∧ (∀ t, request_token req = Some t → t ≠ "" →
       verified (run (verifyJWT lib env req) w) = verified w ++ [t])
  ∧ (∀ t e, request_token req = Some t → t ≠ "" →
       jwt_verify lib t (ACCESS_TOKEN_SECRET env) (clock w) = inl e →
       completion (verifyJWT lib env req) w = Throw (ApiError 401 (forwarded e)))
  ∧ (∀ t decoded d, request_token req = Some t → t ≠ "" →
       jwt_verify lib t (ACCESS_TOKEN_SECRET env) (clock w) = inr decoded →
       db_findById (prop decoded "_id") (tick (db w)) = (Normal None, d) →
       completion (verifyJWT lib env req) w
       = Throw (ApiError 401 "Invalid access Token"))
  ∧ (∀ t decoded d account, request_token req = Some t → t ≠ "" →
       jwt_verify lib t (ACCESS_TOKEN_SECRET env) (clock w) = inr decoded →
       db_findById (prop decoded "_id") (tick (db w)) = (Normal (Some account), d) →
       ∃ exposed,
         completion (verifyJWT lib env req) w = Normal (set_user exposed req)
         ∧ exposed = delete "password" (delete "refreshToken" account)
         ∧ exposed !! "password" = None ∧ exposed !! "refreshToken" = None)
  ∧ (∀ e, completion (verifyJWT lib env req) w = Throw e →
       statusCode e = Some 401).
Proof.
  unfold verifyJWT. repeat apply conj.
  - intros [-> | ->]; split; reflexivity.
  - intros t -> Ht. destruct t; [done |]. js_eval.
    repeat js_case_goal; reflexivity.
  - intros t e -> Ht Hv. destruct t; [done |]. js_eval. by rewrite Hv.
  - intros t decoded d -> Ht Hv Hf. destruct t; [done |]. js_eval.
    rewrite Hv. js_eval. by rewrite Hf.
  - intros t decoded d account -> Ht Hv Hf. destruct t; [done |]. js_eval.
    rewrite Hv. js_eval. rewrite Hf. js_eval. rewrite select_session.
    eexists. repeat apply conj; try reflexivity.
    + apply lookup_delete_eq.
    + rewrite lookup_delete_ne by done. apply lookup_delete_eq.
  - intros e H. js_eval_in H. repeat js_case H; by injection H as <-.
Qed.

(** C8, as the code has it.  An authenticated update whose body lacks
    [email] or [userName] is answered with status 400 and writes
    nothing: the database is left as the other clients made it.  The
    account is fetched before the body is checked: when it is found,
    the message is that of the input error; when it is not, the message
    is that of the error about the account. *)
Theorem UpdateUser_missing_field (req : Request) (n : N) (w : World) :
  authenticated req n →
  truthy (prop (body req) "userName") = false
  ∨ truthy (prop (body req) "email") = false →
  status (run (UpdateUser req) w) = Some 400
  ∧ db (run (UpdateUser req) w) = tick (db w)
  ∧ (caller_fetch (JId n) w ≠ None →
     response (run (UpdateUser req) w)
     = Some (mkResponse 400 (ErrorBody "Username and email are required")))
  ∧ (caller_fetch (JId n) w = None →
     response (run (UpdateUser req) w)
     = Some (mkResponse 400 (ErrorBody "User not found"))).
Proof.
  intros (u & Hu & Hid) Hmissing. unfold caller_fetch.
  unfold UpdateUser. js_eval. rewrite Hu. js_eval. rewrite Hid.
  cbv [to_string toString db_findById]. js_eval.
  destruct (find (has_id (JId n)) (users (tick (db w)))) as [a |]; js_eval.
  - destruct Hmissing as [H | H]; rewrite H; clear H; js_eval;
      try (destruct (truthy _); js_eval); repeat apply conj;
      try reflexivity; intros; try reflexivity; discriminate.
  - repeat apply conj; try reflexivity. intros Habsent. by destruct Habsent.
Qed.

(** C9, as the code has it.  In the 200 response of a login the
    account is the document fetched by email, with every stored field:
    the password hash is in it, and its [refreshToken] is the one stored
    before this login.  The refresh token issued by this login is the
    one beside it in the response, and the one the database holds
    afterwards. *)
Theorem loginUser_embeds_fetched_document (req : Request) (w : World)
    (a r m : string) (u : Doc) :
  response (run (loginUser lib env req) w)
  = Some (mkResponse 200 (ApiResponse 200 (PLogin a u r) m)) →
  login_fetch req w = Some u
  ∧ (∃ p h, prop (body req) "password" = JStr p
            ∧ u !! "password" = Some (JStr h)
            ∧ bcrypt_compare lib p h = true)
  ∧ (∀ x, x ∈ users (db (run (loginUser lib env req) w)) →
          has_id (prop u "_id") x = true →
          x !! "refreshToken" = Some (JStr r)).
Proof.
  unfold login_fetch, loginUser, generateAccessAndRefreshTokens,
    generateAccessToken, generateRefreshToken, isPasswordCorrect.
  js_eval. intros H.
  repeat js_case H.
  injection H as <- <- <- <-.
  match goal with
  | Hf : db_findOne _ _ = _ |- _ => injection Hf as Hfetch <-
  end.
  match goal with
  | Hf : db_findById _ _ = _ |- _ =>
      apply db_findById_found in Hf as (-> & Hid%has_id_prop & _ & _)
  end.
  repeat apply conj.
  - done.
  - do 2 eexists. repeat apply conj; [reflexivity | | eassumption].
    by apply prop_lookup.
  - intros x Hx Hidx.
    match goal with
    | Hs : db_save _ _ _ _ _ = _ |- _ =>
        pose proof (λ Hm, db_save_field _ _ _ _ _ _ "refreshToken" x Hm Hs) as Hfield
    end.
    rewrite Hfield.
    + by rewrite prop_insert_eq.
    + reflexivity.
    + apply list_elem_of_here.
    + done.
    + rewrite (prop_insert_ne _ "_id" "refreshToken") by done. by rewrite Hid.
Qed.

(** C10. Update and delete never read the route parameters: whatever
    [:id] says, they run the same.  What they write, they write to the
    documents whose [_id] is the caller's: the rest of the collection is
    as the other clients left it; the account in the response of a
    successful update has the caller's [_id]; and after a successful
    delete the stored documents with that [_id] are marked as deleted. *)
Theorem caller_id_decides (req : Request) (n : N) (w : World) :
  authenticated req n →
  (∀ ps, UpdateUser (set_params ps req) w = UpdateUser req w
         ∧ deleteUser lib (set_params ps req) w = deleteUser lib req w
         ∧ router lib env PutUpdate (set_params ps req) w = router lib env PutUpdate req w
         ∧ router lib env DeleteDelete (set_params ps req) w = router lib env DeleteDelete req w)
  ∧ (∃ k, acts_only_on (JId n) (users (Nat.iter k tick (db w)))
                       (users (db (run (UpdateUser req) w))))
  ∧ (∃ k, acts_only_on (JId n) (users (Nat.iter k tick (db w)))
                       (users (db (run (deleteUser lib req) w))))
  ∧ (∀ d m, response (run (UpdateUser req) w)
            = Some (mkResponse 200 (ApiResponse 200 (PDoc d) m)) →
            d !! "_id" = Some (JId n))
  ∧ (status (run (deleteUser lib req) w) = Some 200 →
     ∀ x, x ∈ users (db (run (deleteUser lib req) w)) →
          has_id (JId n) x = true →
          x !! "isDeleted" = Some (JBool true)).
Proof.
  intros (u & Hu & Hid). repeat apply conj.
  - intros ps. repeat apply conj; try reflexivity.
    all: unfold router, verifyJWT, request_token, set_params; js_eval.
    all: repeat js_case_goal; reflexivity.
  - remember (run (UpdateUser req) w) as w' eqn:H.
    unfold UpdateUser in H. js_eval_in H. rewrite Hu in H. js_eval_in H.
    rewrite Hid in H. cbv [toString] in H. js_eval_in H.
    repeat js_case H; subst w'; cbn [db];
      repeat match goal with
             | Hf : db_findById _ _ = (_, ?d) |- _ =>
                 apply db_findById_db in Hf; subst d
             end;
      try (exists 1%nat; apply acts_only_on_refl);
      exists 2%nat; eapply db_findByIdAndUpdate_acts; eassumption.
  - remember (run (deleteUser lib req) w) as w' eqn:H.
    unfold deleteUser in H. js_eval_in H. rewrite Hu in H. js_eval_in H.
    rewrite Hid in H. cbv [toString] in H. js_eval_in H.
    repeat js_case H; subst w'; cbn [db].
    all: try match goal with
             | Hf : db_findById _ _ = (Normal (Some _), _) |- _ =>
                 apply db_findById_found in Hf as (Hd & Hg & _ & _);
                 apply has_id_prop in Hg; subst
             end.
    all: repeat match goal with
                | Hf : db_findById _ _ = (_, ?d) |- _ =>
                    apply db_findById_db in Hf; subst d
                end.
    all: try (exists 1%nat; apply acts_only_on_refl).
    all: exists 2%nat; rewrite <- Hg.
    all: rewrite <- (prop_insert_ne _ "_id" "isDeleted" (JBool true)) by done.
    all: rewrite <- (prop_insert_ne _ "_id" "deletedAt" (JDate (clock w))) by done.
    all: eapply db_save_acts; [| eassumption]; reflexivity.
  - intros d m H.
    unfold UpdateUser in H. js_eval_in H. rewrite Hu in H. js_eval_in H.
    rewrite Hid in H. cbv [toString] in H. js_eval_in H.
    repeat js_case H. injection H as <- <-.
    match goal with
    | Hsel : select _ <$> ?o = Some ?g |- _ =>
        destruct o as [o' |]; [injection Hsel as <- | discriminate Hsel]
    end.
    rewrite select_updated, !lookup_delete_ne by done.
    eapply db_findByIdAndUpdate_id; eassumption.
  - remember (run (deleteUser lib req) w) as w' eqn:Hw. intros H x Hx Hidx.
    unfold deleteUser in Hw. js_eval_in Hw. rewrite Hu in Hw. js_eval_in Hw.
    rewrite Hid in Hw. cbv [toString] in Hw. js_eval_in Hw.
    repeat js_case Hw; subst w'; try discriminate H. cbn [db] in Hx.
    match goal with
    | Hf : db_findById _ _ = (Normal (Some _), _) |- _ =>
        apply db_findById_found in Hf as (Hd & Hg & _ & _);
        apply has_id_prop in Hg; subst
    end.
    match goal with
    | Hs : db_save _ _ _ _ _ = _ |- _ =>
        pose proof (λ Hm, db_save_field _ _ _ _ _ _ "isDeleted" x Hm Hs) as Hfield
    end.
    rewrite Hfield.
    + rewrite prop_insert_ne by done. by rewrite prop_insert_eq.
    + reflexivity.
    + apply list_elem_of_here.
    + done.
    + rewrite !prop_insert_ne by done. by rewrite Hg.
Qed.

End Properties.

(** ** More of what the handlers do *)

Section Coverage.

Context (lib : Libs) (env : Env).

(** Every path of a run, one goal each. *)
Ltac js_paths H :=
  js_eval_in H; repeat js_case H.

Ltac take_spans :=
  cbn [spans];
  repeat first
    [ rewrite take_alter_ge by (norm_length; lia)
    | rewrite take_app_le by (norm_length; lia) ];
  apply take_ge; lia.

Ltac answered_path :=
  unfold answered, top_span; cbn [fst snd];
  repeat apply conj;
  [ reflexivity
  | take_spans
  | reflexivity
  | eexists; split;
    [ span_lookup; reflexivity
    | first [ left; repeat apply conj; reflexivity
            | right; eexists; repeat apply conj; reflexivity ] ] ].

Lemma CreateUser_answered (req : Request) (w : World) :
  answered 201 2 w (CreateUser lib req w).
Proof.
  remember (CreateUser lib req w) as r eqn:H. unfold CreateUser in H.
  js_paths H; subst r.
  all: answered_path.
Qed.

Lemma loginUser_answered (req : Request) (w : World) :
  answered 200 1 w (loginUser lib env req w).
Proof.
  remember (loginUser lib env req w) as r eqn:H.
  unfold loginUser, generateAccessAndRefreshTokens, generateAccessToken,
    generateRefreshToken, isPasswordCorrect in H.
  js_paths H; subst r.
  all: answered_path.
Qed.

Lemma logoutUser_answered (req : Request) (w : World) :
  answered 200 1 w (logoutUser lib req w).
Proof.
  remember (logoutUser lib req w) as r eqn:H. unfold logoutUser in H.
  js_paths H; subst r.
  all: answered_path.
Qed.

Lemma UpdateUser_answered (req : Request) (w : World) :
  answered 200 1 w (UpdateUser req w).
Proof.
  remember (UpdateUser req w) as r eqn:H. unfold UpdateUser in H.
  js_paths H; subst r.
  all: answered_path.
Qed.

Lemma deleteUser_answered (req : Request) (w : World) :
  answered 200 1 w (deleteUser lib req w).
Proof.
  remember (deleteUser lib req w) as r eqn:H. unfold deleteUser in H.
  js_paths H; subst r.
  all: answered_path.
Qed.

Lemma operation_answered (op : Operation) (req : Request) (w : World) :
  answered (success_status op) (match op with Create => 2 | _ => 1 end) w
    (operation lib env op req w).
Proof.
  destruct op; cbn [operation success_status].
  - apply CreateUser_answered.
  - apply loginUser_answered.
  - apply logoutUser_answered.
  - apply UpdateUser_answered.
  - apply deleteUser_answered.
Qed.

(** *** What the queries keep *)

Lemma Forall2_map_self {A} (P : A → A → Prop) (f : A → A) (l : list A) :
  (∀ x, P x (f x)) → Forall2 P l (map f l).
Proof. intros Hf. induction l; cbn; constructor; auto. Qed.

Lemma same_accounts_refl (l : list Doc) : same_accounts l l.
Proof.
  unfold same_accounts. rewrite <- (map_id l) at 2.
  by apply Forall2_map_self.
Qed.

Lemma patch_lookup_ne (modified : list string) (this : Doc) (now : Z) (o : Doc)
    (k : string) :
  existsb (String.eqb k) modified = false → k ≠ "updatedAt" →
  patch modified this now o !! k = o !! k.
Proof.
  intros Hk Hne. unfold patch.
  induction modified as [| m ms IH]; cbn [foldr].
  - by rewrite lookup_insert_ne.
  - cbn [existsb] in Hk. apply orb_false_elim in Hk as [Hm Hms].
    rewrite lookup_insert_ne; [by apply IH |].
    intros ->. by rewrite String.eqb_refl in Hm.
Qed.

Lemma db_save_keeps (now : Z) (this : Doc) (modified : list string)
    (d d' : Database) (r : Completion unit) :
  existsb (String.eqb "password") modified = false →
  existsb (String.eqb "_id") modified = false →
  db_save lib now this modified d = (r, d') →
  same_accounts (users d) (users d').
Proof.
  intros Hpw Hid. unfold db_save. rewrite (pre_save_other _ _ _ Hpw).
  destruct (existsb _ (users d)); intros [= _ <-]; [| apply same_accounts_refl].
  cbn [users]. apply Forall2_map_self. intros o.
  destruct (has_id _ o); [| done].
  split; symmetry; by apply patch_lookup_ne.
Qed.

Lemma same_accounts_ids (l k : list Doc) : same_accounts l k → same_ids l k.
Proof. intros H. eapply Forall2_impl; [exact H |]. by intros a b [? _]. Qed.

Lemma db_findByIdAndUpdate_keeps (now : Z) (id a b c : value) (d d' : Database)
    (r : Completion (option Doc)) :
  db_findByIdAndUpdate now id a b c d = (r, d') →
  same_ids (users d) (users d').
Proof.
  assert (same_ids (users d) (users d)) as Hrefl
    by apply same_accounts_ids, same_accounts_refl.
  unfold db_findByIdAndUpdate.
  destruct id; try (by intros [= _ <-]).
  destruct (List.find _ _) as [o |] eqn:Hfind; [| by intros [= _ <-]].
  destruct (negb _); [by intros [= _ <-] |].
  destruct (unique_conflict _ _); intros [= _ <-]; [done |].
  cbn [users]. apply Forall2_map_self. intros x.
  destruct (has_id _ x) eqn:Hx; [| done].
  apply find_some in Hfind as [_ Ho].
  apply bool_decide_eq_true in Hx, Ho.
  unfold updated_user. rewrite !lookup_insert_ne by done. congruence.
Qed.

Lemma db_findOne_db (q : Query) (d d' : Database) (c : Completion (option Doc)) :
  db_findOne q d = (c, d') → d' = d.
Proof. unfold db_findOne. by intros [= _ <-]. Qed.

(** The paths of a run end in a database that a query left: the ones
    that only read are put back to what they read. *)
Ltac db_reads :=
  repeat match goal with
         | Hf : db_findById _ _ = (_, ?d) |- _ =>
             apply db_findById_db in Hf; subst d
         | Hf : db_findOne _ _ = (_, ?d) |- _ =>
             apply db_findOne_db in Hf; subst d
         end.

Lemma logoutUser_keeps (req : Request) (w : World) :
  ∃ k, same_accounts (users (Nat.iter k tick (db w)))
         (users (db (run (logoutUser lib req) w))).
Proof.
  remember (run (logoutUser lib req) w) as w' eqn:H. unfold logoutUser in H.
  js_paths H; subst w'; cbn [db]; db_reads.
  all: first
    [ exists 0%nat; apply same_accounts_refl
    | exists 1%nat; apply same_accounts_refl
    | exists 2%nat; eapply db_save_keeps; [| | eassumption]; reflexivity ].
Qed.

Lemma deleteUser_keeps (req : Request) (w : World) :
  ∃ k, same_accounts (users (Nat.iter k tick (db w)))
         (users (db (run (deleteUser lib req) w))).
Proof.
  remember (run (deleteUser lib req) w) as w' eqn:H. unfold deleteUser in H.
  js_paths H; subst w'; cbn [db]; db_reads.
  all: first
    [ exists 0%nat; apply same_accounts_refl
    | exists 1%nat; apply same_accounts_refl
    | exists 2%nat; eapply db_save_keeps; [| | eassumption]; reflexivity ].
Qed.

Lemma loginUser_keeps (req : Request) (w : World) :
  ∃ k, same_accounts (users (Nat.iter k tick (db w)))
         (users (db (run (loginUser lib env req) w))).
Proof.
  remember (run (loginUser lib env req) w) as w' eqn:H.
  unfold loginUser, generateAccessAndRefreshTokens, generateAccessToken,
    generateRefreshToken, isPasswordCorrect, db_findOne in H.
  js_paths H; subst w'; cbn [db]; db_reads.
  all: first
    [ exists 0%nat; apply same_accounts_refl
    | exists 1%nat; apply same_accounts_refl
    | exists 2%nat; apply same_accounts_refl
    | exists 3%nat; eapply db_save_keeps; [| | eassumption]; reflexivity ].
Qed.

Lemma UpdateUser_keeps (req : Request) (w : World) :
  ∃ k, same_ids (users (Nat.iter k tick (db w)))
         (users (db (run (UpdateUser req) w))).
Proof.
  remember (run (UpdateUser req) w) as w' eqn:H. unfold UpdateUser in H.
  js_paths H; subst w'; cbn [db]; db_reads.
  all: first
    [ exists 0%nat; apply same_accounts_ids, same_accounts_refl
    | exists 1%nat; apply same_accounts_ids, same_accounts_refl
    | exists 2%nat; eapply db_findByIdAndUpdate_keeps; eassumption ].
Qed.

(** A [save] that went through left a document with the [_id] of
    [this] in the collection. *)
Lemma db_save_exists (now : Z) (this : Doc) (modified : list string)
    (d d' : Database) (c : unit) :
  existsb (String.eqb "password") modified = false →
  existsb (String.eqb "_id") modified = false →
  db_save lib now this modified d = (Normal c, d') →
  ∃ x, x ∈ users d' ∧ has_id (prop this "_id") x = true.
Proof.
  intros Hpw Hid Hsave.
  apply db_save_written in Hsave as [-> Hex]; [| done].
  apply existsb_exists in Hex as (o & Hin & Ho).
  exists (patch modified this now o). split.
  - apply list_elem_of_fmap. exists o. rewrite Ho.
    split; [done | by apply list_elem_of_In].
  - unfold has_id in *. apply bool_decide_eq_true.
    apply bool_decide_eq_true in Ho. by rewrite patch_lookup_ne.
Qed.

(** What a path of [logoutUser] or [deleteUser] that saved knows. *)
Ltac saved_path Hg :=
  match goal with
  | Hf : db_findById _ _ = (Normal (Some _), _) |- _ =>
      apply db_findById_found in Hf as (Hd & Hg & _ & _);
      apply has_id_prop in Hg; subst
  end.

Lemma db_findByIdAndUpdate_result (now : Z) (id a b c : value) (d d' : Database)
    (o' : Doc) :
  db_findByIdAndUpdate now id a b c d = (Normal (Some o'), d') →
  ∃ o, List.find (has_id id) (users d) = Some o
       ∧ o' = updated_user now a b c o
       ∧ users d' = map (λ x, if has_id id x then o' else x) (users d).
Proof.
  unfold db_findByIdAndUpdate.
  destruct id; try discriminate;
    (destruct (List.find _ _) as [o |] eqn:Hfind; [| discriminate]);
    (destruct (negb _); [discriminate |]);
    (destruct (unique_conflict _ _); [discriminate |]);
    intros [= <- <-]; by exists o.
Qed.

(** *** What a created account looks like *)

Lemma obj_lookup_here (k : string) (v : value) (l : list (string * value)) :
  obj ((k, v) :: l) !! k = if is_undefined v then obj l !! k else Some v.
Proof.
  destruct (is_undefined v) eqn:Hv; [| by apply obj_lookup_head].
  unfold obj. cbn [List.filter snd]. by rewrite Hv.
Qed.

Lemma new_user_no_path (id : N) (now : Z) (fields : Doc) (k : string) :
  k ∉ ["_id"; "userName"; "email"; "password"; "lastUpdate"; "registrationDate";
       "deletedAt"; "isDeleted"; "refreshToken"; "createdAt"; "updatedAt"; "__v"] →
  new_user id now fields !! k = None.
Proof.
  intros Hk. unfold new_user.
  repeat (rewrite obj_lookup_tail;
          [| intros ->; apply Hk; repeat first [apply list_elem_of_here
                                              | apply list_elem_of_further]]).
  done.
Qed.

Lemma db_create_stored (now : Z) (fields : Doc) (d d' : Database) (doc : Doc) :
  db_create lib now fields d = (Normal doc, d') →
  d' = mkDatabase (users d ++ [doc]) (outside d) (next_id d + 1)%N
  ∧ doc !! "_id" = Some (JId (next_id d))
  ∧ (∃ s, doc !! "email" = Some (JStr s)
          ∧ castString (prop fields "email") = JStr s)
  ∧ (∃ p, castString (prop fields "password") = JStr p
          ∧ doc !! "password" = Some (JStr (bcrypt_hash lib p 10)))
  ∧ doc !! "username" = None ∧ doc !! "fullName" = None.
Proof.
  unfold db_create. cbn [users outside next_id].
  set (new := new_user (next_id d) now fields).
  destruct (negb _) eqn:Hreq; [discriminate |].
  apply negb_false_iff in Hreq.
  apply andb_prop in Hreq as [[_ Hemail]%andb_prop Hpw].
  unfold pre_save. cbn [existsb String.eqb Ascii.eqb Bool.eqb orb negb].
  unfold required in Hemail, Hpw.
  destruct (new !! "email") as [[| | | | s | |] |] eqn:Hs; try discriminate.
  destruct (new !! "password") as [[| | | | p | |] |] eqn:Hp; try discriminate.
  rewrite (lookup_prop _ _ _ Hp).
  destruct (unique_conflict _ _); [discriminate |].
  intros [= <- <-]. repeat apply conj.
  - reflexivity.
  - rewrite lookup_insert_ne by done. by apply obj_lookup_head.
  - exists s. rewrite lookup_insert_ne by done. split; [done |].
    unfold new, new_user in Hs. rewrite !obj_lookup_tail in Hs by done.
    rewrite obj_lookup_here in Hs.
    destruct (is_undefined _); [| congruence].
    by rewrite !obj_lookup_tail in Hs by done.
  - exists p. split; [| apply lookup_insert_eq].
    unfold new, new_user in Hp. rewrite !obj_lookup_tail in Hp by done.
    rewrite obj_lookup_here in Hp.
    destruct (is_undefined _); [| congruence].
    by rewrite !obj_lookup_tail in Hp by done.
  - rewrite lookup_insert_ne by done. apply new_user_no_path.
    intros H. repeat (apply elem_of_cons in H as [H | H]; [discriminate H |]).
    by apply elem_of_nil in H.
  - rewrite lookup_insert_ne by done. apply new_user_no_path.
    intros H. repeat (apply elem_of_cons in H as [H | H]; [discriminate H |]).
    by apply elem_of_nil in H.
Qed.

(** *** Registering, then logging in *)

Lemma find_app_last {A} (f : A → bool) (l : list A) (x : A) :
  List.find f l = None → f x = true → List.find f (l ++ [x]) = Some x.
Proof.
  induction l as [| y l IH]; cbn; [by intros _ -> |].
  destruct (f y); [discriminate | exact IH].
Qed.

Lemma find_none_weaken {A} (f g : A → bool) (l : list A) :
  (∀ x, g x = true → f x = true) → List.find f l = None → List.find g l = None.
Proof.
  intros Himp. induction l as [| y l IH]; cbn; [done |].
  destruct (f y) eqn:Hf; [discriminate |].
  destruct (g y) eqn:Hg; [| exact IH].
  by rewrite (Himp y Hg) in Hf.
Qed.

Lemma CreateUser_valid_unique_run (req : Request) (w : World) :
  create_valid req →
  create_check req w = None →
  outside (db w) = [] →
  ∃ doc,
    db_create lib (clock w) (create_fields req (clock w)) (db w)
    = (Normal doc, db (run (CreateUser lib req) w))
    ∧ status (run (CreateUser lib req) w) = Some 201.
Proof.
  intros Hvalid Hcheck Hquiet.
  destruct (create_fields_props req (clock w) Hvalid) as (Hpu & Hpe & Hpp).
  destruct Hvalid as (Hu & He & Hp).
  unfold create_check in Hcheck. rewrite (tick_quiet _ Hquiet) in Hcheck.
  destruct (db_create_ok lib (clock w) (create_fields req (clock w)) (db w))
    as (doc & Hcreate & Hdoc); [by rewrite ?Hpu, ?Hpe, ?Hpp .. |].
  exists doc. rewrite Hcreate. unfold create_fields in Hcreate.
  unfold CreateUser. js_eval. rewrite Hu, He, Hp.
  unfold db_findOne. js_eval. rewrite !(tick_quiet _ Hquiet), Hcheck. js_eval.
  rewrite !(tick_quiet _ Hquiet), Hcreate. js_eval. rewrite (has_id_prop _ _ Hdoc).
  cbv [toString]. js_eval.
  unfold tick at 1 2. cbn [outside users next_id]. rewrite Hquiet.
  unfold db_findById. cbn [users].
  destruct (find_some_elem (has_id (JId (next_id (db w)))) (users (db w) ++ [doc]) doc)
    as (found & Hfound); [apply elem_of_app; right; apply list_elem_of_here | done |].
  rewrite Hfound. js_eval.
  apply find_some in Hfound as [_ Hid%has_id_prop].
  rewrite select_created, !prop_delete_ne, Hid by done.
  js_eval. split; reflexivity.
Qed.

Lemma loginUser_succeeds (req : Request) (w : World) (u : Doc) (n : N) (p h : string) :
  outside (db w) = [] →
  truthy (prop (body req) "email") = true →
  truthy (prop (body req) "password") = true →
  login_fetch req w = Some u →
  u !! "_id" = Some (JId n) →
  prop (body req) "password" = JStr p →
  u !! "password" = Some (JStr h) →
  bcrypt_compare lib p h = true →
  ∃ a r, response (run (loginUser lib env req) w)
         = Some (mkResponse 200 (ApiResponse 200 (PLogin a u r) "Login successful")).
Proof.
  intros Hquiet He Hp Hfetch Hid Hpw Hhash Hcmp.
  unfold login_fetch in Hfetch. rewrite (tick_quiet _ Hquiet) in Hfetch.
  unfold loginUser, generateAccessAndRefreshTokens, generateAccessToken,
    generateRefreshToken, isPasswordCorrect.
  js_eval. rewrite He, Hp. unfold db_findOne. js_eval.
  rewrite !(tick_quiet _ Hquiet), Hfetch, Hpw, (lookup_prop _ _ _ Hhash).
  js_eval. rewrite Hcmp, (lookup_prop _ _ _ Hid). cbv [toString]. js_eval.
  unfold db_findById. js_eval. rewrite !(tick_quiet _ Hquiet).
  apply find_some in Hfetch as [Hin _].
  destruct (find_some_elem (has_id (JId n)) (users (db w)) u) as [u' Hu'];
    [by apply list_elem_of_In | by apply bool_decide_eq_true |].
  rewrite Hu'. js_eval.
  unfold db_save. rewrite pre_save_other by reflexivity.
  rewrite (prop_insert_ne _ "_id" "refreshToken") by done.
  apply find_some in Hu' as Hu''. destruct Hu'' as [_ Hidu'].
  rewrite (has_id_prop _ _ Hidu'), !(tick_quiet _ Hquiet),
    (find_existsb _ _ _ Hu').
  js_eval. eauto.
Qed.

(** X1. Each of the five operations catches what it throws: the run
    returns, and the response it has sent has the status of its success,
    201 for create and 200 for the others, or 400; no other status is
    ever sent. *)
Theorem operations_always_answer (op : Operation) (req : Request) (w : World) :
  completion (operation lib env op req) w = Normal tt
  ∧ (status (run (operation lib env op req) w) = Some (success_status op)
     ∨ status (run (operation lib env op req) w) = Some 400).
Proof.
  destruct (operation_answered op req w) as (Hret & _ & _ & root & _ & Hcase).
  split; [exact Hret |].
  destruct Hcase as [(Hok & _) | (e & Hres & _)]; [by left | right].
  unfold status, run. by rewrite Hres.
Qed.

(** X2. The [finally] block does its work: on every path of login,
    logout, update and delete, and on every path of create that ends in
    a 400, [end()] is called exactly once on the top-level span. *)
Theorem top_span_ended_once (op : Operation) (req : Request) (w : World) :
  op ≠ Create ∨ status (run (operation lib env op req) w) = Some 400 →
  ends_of (run (operation lib env op req) w) (length (spans w)) = Some 1%nat.
Proof.
  intros Hpath.
  destruct (operation_answered op req w) as (_ & _ & _ & root & Hroot & Hcase).
  unfold ends_of, run. unfold top_span in Hroot. rewrite Hroot. cbn.
  destruct Hcase as [(Hok & _ & Hends) | (e & _ & _ & Hends)]; [| by rewrite Hends].
  destruct Hpath as [Hop | H400].
  - rewrite Hends. by destruct op.
  - unfold run in H400. rewrite Hok in H400. by destruct op.
Qed.

(** X3. A failure is recorded before it is answered: when the status
    is 400, the top-level span holds exactly one exception, and the
    [error] of the response is its message; when the operation
    succeeds, the top-level span holds none. *)
Theorem failure_recorded_on_top_span (op : Operation) (req : Request) (w : World) :
  ∃ root, top_span w (run (operation lib env op req) w) = Some root
    ∧ (status (run (operation lib env op req) w) = Some 400 →
       ∃ e, span_exceptions root = [e]
            ∧ response (run (operation lib env op req) w)
              = Some (mkResponse 400 (ErrorBody (message e))))
    ∧ (status (run (operation lib env op req) w) = Some (success_status op) →
       span_exceptions root = []).
Proof.
  destruct (operation_answered op req w) as (_ & _ & _ & root & Hroot & Hcase).
  exists root. repeat apply conj; [exact Hroot | |].
  - intros H400. destruct Hcase as [(Hok & _) | (e & Hres & Hexc & _)].
    + unfold run in H400. rewrite Hok in H400. by destruct op.
    + by exists e.
  - intros H2xx. destruct Hcase as [(_ & Hexc & _) | (e & Hres & _)]; [done |].
    unfold status, run in H2xx. rewrite Hres in H2xx. by destruct op.
Qed.

(** X4. An operation works on the spans it starts: the spans that were
    there before the request are left as they were, and no token is
    handed to [jwt.verify]. *)
Theorem earlier_spans_untouched (op : Operation) (req : Request) (w : World) :
  take (length (spans w)) (spans (run (operation lib env op req) w)) = spans w
  ∧ verified (run (operation lib env op req) w) = verified w.
Proof.
  destruct (operation_answered op req w) as (_ & Htake & Hverified & _).
  by split.
Qed.

(** X5. Create and login check the body before anything else: with a
    field missing, [null], or empty, they answer 400 with their message
    about required fields, and the database is not queried at all. *)
Theorem missing_fields_refused (req : Request) (w : World) :
  (truthy (prop (body req) "userName") && truthy (prop (body req) "email")
   && truthy (prop (body req) "password") = false →
   response (run (CreateUser lib req) w)
   = Some (mkResponse 400 (ErrorBody "Username, email, and password are required"))
   ∧ db (run (CreateUser lib req) w) = db w)
  ∧ (truthy (prop (body req) "email") && truthy (prop (body req) "password") = false →
     response (run (loginUser lib env req) w)
     = Some (mkResponse 400 (ErrorBody "Email and password are required"))
     ∧ db (run (loginUser lib env req) w) = db w).
Proof.
  split; intros Hmissing.
  - unfold CreateUser. js_eval.
    destruct (truthy (prop (body req) "userName")),
      (truthy (prop (body req) "email")),
      (truthy (prop (body req) "password"));
      try discriminate Hmissing; js_eval; split; reflexivity.
  - unfold loginUser. js_eval.
    destruct (truthy (prop (body req) "email")),
      (truthy (prop (body req) "password"));
      try discriminate Hmissing; js_eval; split; reflexivity.
Qed.

(** X6. A create request whose name or email is taken is answered 400
    with the message about the existing user; nothing is written and no
    ObjectId is used up. *)
Theorem CreateUser_duplicate_refused (req : Request) (w : World) (existing : Doc) :
  create_valid req →
  create_check req w = Some existing →
  response (run (CreateUser lib req) w)
  = Some (mkResponse 400
            (ErrorBody "User with the given username or email already exists"))
  ∧ db (run (CreateUser lib req) w) = tick (db w).
Proof.
  intros (Hu & He & Hp) Hcheck. unfold create_check in Hcheck.
  unfold CreateUser. js_eval. rewrite Hu, He, Hp.
  unfold db_findOne. js_eval. rewrite Hcheck. js_eval. split; reflexivity.
Qed.

(** X7. Apart from create, no operation adds or removes a document:
    after login, logout, update and delete the collection holds, one for
    one, the documents the other clients left, with their [_id]; and
    login, logout and delete leave every password hash as it was (the
    hook that hashes on save finds the password unmodified). *)
Theorem accounts_kept (op : Operation) (req : Request) (w : World) :
  op ≠ Create →
  ∃ k, same_ids (users (Nat.iter k tick (db w)))
         (users (db (run (operation lib env op req) w)))
       ∧ (op ≠ UpdateOp →
          same_accounts (users (Nat.iter k tick (db w)))
            (users (db (run (operation lib env op req) w)))).
Proof.
  intros Hop. destruct op; [done | | | |]; cbn [operation].
  - destruct (loginUser_keeps req w) as [k Hk]. exists k.
    split; [by apply same_accounts_ids | done].
  - destruct (logoutUser_keeps req w) as [k Hk]. exists k.
    split; [by apply same_accounts_ids | done].
  - destruct (UpdateUser_keeps req w) as [k Hk]. exists k. by split.
  - destruct (deleteUser_keeps req w) as [k Hk]. exists k.
    split; [by apply same_accounts_ids | done].
Qed.

(** X8. A logout that answers 200 has cleared the refresh token: the
    caller's account is still stored, and every stored document with the
    caller's [_id] has [refreshToken] set to [null]. *)
Theorem logoutUser_clears_refresh_token (req : Request) (n : N) (w : World) :
  authenticated req n →
  status (run (logoutUser lib req) w) = Some 200 →
  (∃ x, x ∈ users (db (run (logoutUser lib req) w)) ∧ has_id (JId n) x = true)
  ∧ (∀ x, x ∈ users (db (run (logoutUser lib req) w)) →
          has_id (JId n) x = true → x !! "refreshToken" = Some JNull).
Proof.
  intros (u & Hu & Hid).
  remember (run (logoutUser lib req) w) as w' eqn:Hw. intros H.
  unfold logoutUser in Hw. js_eval_in Hw. rewrite Hu in Hw. js_eval_in Hw.
  rewrite Hid in Hw. cbv [toString] in Hw.
  js_paths Hw; subst w'; try discriminate H. cbn [db].
  saved_path Hg.
  match goal with
  | Hs : db_save _ _ ?this _ _ = _ |- _ =>
      assert (prop this "_id" = JId n) as Hthis
        by (rewrite !prop_insert_ne by done; exact Hg);
      pose proof (λ Hp Hi, db_save_exists _ _ _ _ _ _ Hp Hi Hs) as Hex;
      pose proof (λ x Hm, db_save_field lib _ _ _ _ _ _ "refreshToken" x Hm Hs) as Hfield
  end.
  rewrite Hthis in Hex, Hfield. split; [by apply Hex |].
  intros x Hx Hidx. rewrite Hfield; try done.
  - by rewrite prop_insert_eq.
  - apply list_elem_of_here.
Qed.

(** X9. A delete that answers 200 is a soft delete: the caller's
    account is still stored, and every stored document with the caller's
    [_id] has [deletedAt] set to the time of the request. *)
Theorem deleteUser_keeps_the_document (req : Request) (n : N) (w : World) :
  authenticated req n →
  status (run (deleteUser lib req) w) = Some 200 →
  (∃ x, x ∈ users (db (run (deleteUser lib req) w)) ∧ has_id (JId n) x = true)
  ∧ (∀ x, x ∈ users (db (run (deleteUser lib req) w)) →
          has_id (JId n) x = true → x !! "deletedAt" = Some (JDate (clock w))).
Proof.
  intros (u & Hu & Hid).
  remember (run (deleteUser lib req) w) as w' eqn:Hw. intros H.
  unfold deleteUser in Hw. js_eval_in Hw. rewrite Hu in Hw. js_eval_in Hw.
  rewrite Hid in Hw. cbv [toString] in Hw.
  js_paths Hw; subst w'; try discriminate H. cbn [db].
  saved_path Hg.
  match goal with
  | Hs : db_save _ _ ?this _ _ = _ |- _ =>
      assert (prop this "_id" = JId n) as Hthis
        by (rewrite !prop_insert_ne by done; exact Hg);
      pose proof (λ Hp Hi, db_save_exists _ _ _ _ _ _ Hp Hi Hs) as Hex;
      pose proof (λ x Hm, db_save_field lib _ _ _ _ _ _ "deletedAt" x Hm Hs) as Hfield
  end.
  rewrite Hthis in Hex, Hfield. split; [by apply Hex |].
  intros x Hx Hidx. rewrite Hfield; try done.
  - by rewrite prop_insert_eq.
  - apply list_elem_of_further, list_elem_of_here.
Qed.

(** X10. An update whose body gives the name and the email as strings,
    and that answers 200, has written that name, that email and the
    time of the request as [lastUpdate] to the caller's account, and
    answers with that account, less its [password] and [__v]. *)
Theorem UpdateUser_writes_and_answers (req : Request) (n : N) (w : World)
    (userName email : string) :
  authenticated req n →
  prop (body req) "userName" = JStr userName →
  prop (body req) "email" = JStr email →
  status (run (UpdateUser req) w) = Some 200 →
  ∃ stored,
    (∀ x, x ∈ users (db (run (UpdateUser req) w)) →
          has_id (JId n) x = true → x = stored)
    ∧ stored !! "userName" = Some (JStr userName)
    ∧ stored !! "email" = Some (JStr email)
    ∧ stored !! "lastUpdate" = Some (JDate (clock w))
    ∧ response (run (UpdateUser req) w)
      = Some (mkResponse 200
                (ApiResponse 200 (PDoc (delete "password" (delete "__v" stored)))
                   "User updated successfully")).
Proof.
  intros (u & Hu & Hid) Hname Hemail.
  remember (run (UpdateUser req) w) as w' eqn:Hw. intros H.
  unfold UpdateUser in Hw. js_eval_in Hw. rewrite Hu in Hw. js_eval_in Hw.
  rewrite Hid, Hname, Hemail in Hw. cbv [toString] in Hw.
  js_paths Hw; subst w'; try discriminate H. cbn [db response].
  match goal with
  | Hsel : select _ <$> ?o = Some ?g |- _ =>
      destruct o as [stored |]; [injection Hsel as <- | discriminate Hsel]
  end.
  match goal with
  | Hf : db_findByIdAndUpdate _ _ _ _ _ _ = _ |- _ =>
      apply db_findByIdAndUpdate_result in Hf as (o & _ & -> & ->)
  end.
  match goal with
  | |- context [updated_user ?t ?a ?b ?c o] => exists (updated_user t a b c o)
  end.
  repeat apply conj; [| | | | reflexivity].
  - intros x (y & -> & _)%list_elem_of_fmap Hx.
    destruct (has_id (JId n) y) eqn:Hy; [done | congruence].
  - apply lookup_insert_eq.
  - unfold updated_user. rewrite lookup_insert_ne by done. apply lookup_insert_eq.
  - unfold updated_user. rewrite !(lookup_insert_ne _ _ "lastUpdate") by done.
    apply lookup_insert_eq.
Qed.

(** X11. [generateAccessAndRefreshTokens] fails in one way only, with
    its own 500 error, whatever went wrong inside.  When it returns, the
    account was found by the id, the two tokens are signed from it, and
    every stored document with that id holds the new refresh token in
    place of the one it had. *)
Theorem generateAccessAndRefreshTokens_outcomes (userID : value) (w : World) :
  (∀ e, completion (generateAccessAndRefreshTokens lib env userID) w = Throw e →
        e = ApiError 500 "Error generating access and refresh tokens")
  ∧ (∀ accessToken refreshToken,
       completion (generateAccessAndRefreshTokens lib env userID) w
       = Normal (accessToken, refreshToken) →
       ∃ account,
         caller_fetch userID w = Some account
         ∧ generateAccessToken lib env account w = (Normal accessToken, w)
         ∧ generateRefreshToken lib env account w = (Normal refreshToken, w)
         ∧ ∀ x, x ∈ users (db (run (generateAccessAndRefreshTokens lib env userID) w)) →
                has_id userID x = true →
                x !! "refreshToken" = Some (JStr refreshToken)).
Proof.
  split.
  - intros e H. unfold generateAccessAndRefreshTokens in H.
    js_eval_in H. repeat js_case H; by injection H as <-.
  - intros accessToken refreshToken. unfold completion, run.
    remember (generateAccessAndRefreshTokens lib env userID w) as r eqn:Hr.
    intros H.
    unfold generateAccessAndRefreshTokens, generateAccessToken,
      generateRefreshToken in Hr |- *.
    js_paths Hr; subst r; cbn [fst snd] in H |- *; try discriminate H.
    injection H as <- <-.
    match goal with
    | Hf : db_findById _ _ = (Normal (Some _), _) |- _ =>
        apply db_findById_found in Hf as (-> & Hg & _ & Hfind)
    end.
    eexists. repeat apply conj; [exact Hfind | reflexivity | reflexivity |].
    cbn [db]. intros x Hx Hidx.
    match goal with
    | Hs : db_save _ _ _ _ _ = _ |- _ =>
        pose proof (λ Hm, db_save_field lib _ _ _ _ _ _ "refreshToken" x Hm Hs) as Hfield
    end.
    rewrite Hfield.
    + by rewrite prop_insert_eq.
    + reflexivity.
    + apply list_elem_of_here.
    + done.
    + rewrite prop_insert_ne by done. by rewrite (has_id_prop _ _ Hg).
Qed.

(** X12. Where the token is taken from: a non-empty [accessToken]
    cookie is the token, whatever the header says; without one, a
    header [Bearer t] gives [t]; with neither there is no token. *)
Theorem request_token_sources (req : Request) (t : string) :
  (∀ c, cookies req = Some c → c !! "accessToken" = Some t → t ≠ "" →
        request_token req = Some t)
  ∧ (cookies req ≫= (λ c, c !! "accessToken") = None
     ∨ cookies req ≫= (λ c, c !! "accessToken") = Some "" →
     (authorization req = Some ("Bearer " +:+ t) → request_token req = Some t)
     ∧ (authorization req = None → request_token req = None)).
Proof.
  unfold request_token. split.
  - intros c -> Hc Ht. cbn. rewrite Hc. by destruct t.
  - intros [-> | ->]; split; by intros ->.
Qed.

(** X13. The session middleware reads and does nothing else: it starts
    no span, sends no response, and leaves the database as the query
    found it.  So a request it rejects goes through a protected route
    with a 401 error and no other trace. *)
Theorem verifyJWT_reads_only (req : Request) (w : World) :
  (spans (run (verifyJWT lib env req) w) = spans w
   ∧ response (run (verifyJWT lib env req) w) = response w
   ∧ (db (run (verifyJWT lib env req) w) = db w
      ∨ db (run (verifyJWT lib env req) w) = tick (db w)))
  ∧ (∀ e r, completion (verifyJWT lib env req) w = Throw e →
            r = PostLogout ∨ r = PutUpdate ∨ r = DeleteDelete →
            completion (router lib env r req) w = Throw e
            ∧ run (router lib env r req) w = run (verifyJWT lib env req) w
            ∧ statusCode e = Some 401).
Proof.
  split.
  - remember (run (verifyJWT lib env req) w) as w' eqn:Hw.
    unfold verifyJWT in Hw. js_paths Hw; subst w'; cbn [spans response db]; db_reads.
    all: repeat apply conj; try reflexivity; first [by left | by right].
  - intros e r H Hr.
    assert (statusCode e = Some 401) as H401.
    { unfold verifyJWT in H. js_eval_in H. repeat js_case H; by injection H as <-. }
    unfold completion, run in *.
    destruct Hr as [-> | [-> | ->]]; cbn [router]; unfold bind;
      destruct (verifyJWT lib env req w) as [c w1];
      cbn [fst] in H; subst c; by repeat split.
Qed.


(** X15. Registering and then logging in.  When nobody else touches the
    database, a create request with a new name and a new email is
    answered 201 and stores the password as bcrypt hashed it; a login
    with the same email and password is then answered 200, provided
    bcrypt accepts the password against its own hash. *)
Theorem register_then_login (reg login : Request) (w : World) (e p : string) :
  outside (db w) = [] →
  truthy (prop (body reg) "userName") = true →
  prop (body reg) "email" = JStr e → e ≠ "" →
  prop (body reg) "password" = JStr p → p ≠ "" →
  create_check reg w = None →
  prop (body login) "email" = JStr e →
  prop (body login) "password" = JStr p →
  bcrypt_compare lib p (bcrypt_hash lib p 10) = true →
  let w1 := run (CreateUser lib reg) w in
  status w1 = Some 201
  ∧ (∃ doc, users (db w1) = users (db w) ++ [doc]
            ∧ doc !! "email" = Some (JStr e)
            ∧ doc !! "password" = Some (JStr (bcrypt_hash lib p 10)))
  ∧ status (run (loginUser lib env login) w1) = Some 200.
Proof.
  intros Hquiet Hname He Hne Hp Hnp Hcheck Hle Hlp Hcmp w1.
  assert (create_valid reg) as Hvalid.
  { unfold create_valid. rewrite He, Hp. cbn [truthy].
    by rewrite !non_empty_eqb. }
  destruct (CreateUser_valid_unique_run reg w Hvalid Hcheck Hquiet)
    as (doc & Hcreate & H201).
  fold w1 in Hcreate, H201.
  destruct (create_fields_props reg (clock w) Hvalid) as (_ & Hpe & Hpp).
  apply db_create_stored in Hcreate
    as (Hdb & Hid & (s & Hs & Hcs) & (p' & Hcp & Hhash) & _).
  rewrite Hpe, He in Hcs. rewrite Hpp, Hp in Hcp. cbn in Hcs, Hcp.
  injection Hcs as <-. injection Hcp as <-.
  split; [exact H201 |]. split.
  { exists doc. by rewrite Hdb. }
  assert (login_fetch login w1 = Some doc) as Hfetch.
  { unfold login_fetch. rewrite Hdb. unfold tick. cbn [outside users].
    rewrite Hquiet. rewrite Hle. apply find_app_last.
    - unfold create_check in Hcheck. rewrite (tick_quiet _ Hquiet), He in Hcheck.
      revert Hcheck. apply find_none_weaken. intros x Hx. cbn [matches].
      cbn [matches] in Hx. by rewrite Hx, orb_true_r.
    - cbn [matches]. by apply bool_decide_eq_true. }
  destruct (loginUser_succeeds login w1 doc (next_id (db w)) p (bcrypt_hash lib p 10))
    as (a & r & Hres); try done.
  - by rewrite Hdb, Hquiet.
  - rewrite Hle. cbn [truthy]. by apply non_empty_eqb.
  - rewrite Hlp. cbn [truthy]. by apply non_empty_eqb.
  - unfold status. by rewrite Hres.
Qed.

(** X16. When the tokens cannot be issued because the account is gone
    by the time [generateAccessAndRefreshTokens] fetches it, a login
    with the right password is answered 400 with the message of the 500
    error, and that error is the one recorded on the top-level span. *)
Theorem loginUser_token_failure (req : Request) (w : World) (u : Doc) (n : N)
    (p h : string) :
  truthy (prop (body req) "email") = true →
  truthy (prop (body req) "password") = true →
  login_fetch req w = Some u →
  u !! "_id" = Some (JId n) →
  prop (body req) "password" = JStr p →
  u !! "password" = Some (JStr h) →
  bcrypt_compare lib p h = true →
  List.find (has_id (JId n)) (users (tick (tick (db w)))) = None →
  response (run (loginUser lib env req) w)
  = Some (mkResponse 400 (ErrorBody "Error generating access and refresh tokens"))
  ∧ span_exceptions <$> top_span w (run (loginUser lib env req) w)
    = Some [ApiError 500 "Error generating access and refresh tokens"].
Proof.
  intros He Hp Hfetch Hid Hpw Hhash Hcmp Hgone. unfold login_fetch in Hfetch.
  unfold loginUser, generateAccessAndRefreshTokens, isPasswordCorrect, top_span.
  js_eval. rewrite He, Hp. unfold db_findOne. js_eval.
  rewrite Hfetch, Hpw, (lookup_prop _ _ _ Hhash). js_eval.
  rewrite Hcmp, (lookup_prop _ _ _ Hid). cbv [toString]. js_eval.
  unfold db_findById. js_eval. rewrite Hgone. js_eval.
  split; [reflexivity |]. span_lookup. reflexivity.
Qed.

(** X17. What each operation reads of the request: create and login
    the body alone; logout and delete the caller alone; update the body
    and the caller.  Cookies, headers and route parameters change
    nothing, nor does the body for logout and delete. *)
Theorem operations_read (req req' : Request) (w : World) :
  (body req = body req' →
   CreateUser lib req w = CreateUser lib req' w
   ∧ loginUser lib env req w = loginUser lib env req' w)
  ∧ (user req = user req' →
     logoutUser lib req w = logoutUser lib req' w
     ∧ deleteUser lib req w = deleteUser lib req' w)
  ∧ (body req = body req' → user req = user req' →
     UpdateUser req w = UpdateUser req' w).
Proof.
  destruct req as [b c a ps u], req' as [b' c' a' ps' u'].
  cbn [body user]. repeat apply conj.
  - by intros <-.
  - by intros <-.
  - by intros <- <-.
Qed.

End Coverage.

(** ** The scenario, run *)

Lemma spans_not_ended_exactly_once_witness :
  status (run (CreateUser toy register_alice) (world0 [])) = Some 201
  ∧ ends_of (run (CreateUser toy register_alice) (world0 [])) 0 = Some 2%nat
  ∧ ends_of (run (loginUser toy dotenv (login_request "a@x.com" "wrong"))
               (world0 [alice])) 1
    = Some 0%nat.
Proof.
  split; [reflexivity |]. split.
  - apply (spans_not_ended_exactly_once toy dotenv register_alice (world0 [])).
    reflexivity.
  - apply (spans_not_ended_exactly_once toy dotenv
             (login_request "a@x.com" "wrong") (world0 [alice])); [reflexivity .. |].
    right. exists alice, "wrong", "$2a$10$secret1". repeat split; reflexivity.
Defined.

Lemma loginUser_invalid_credentials_witness :
  response (run (loginUser toy dotenv (login_request "nobody@x.com" "secret1"))
              (world0 [alice]))
  = Some (mkResponse 400 (ErrorBody "Invalid email or password"))
  ∧ response (run (loginUser toy dotenv (login_request "a@x.com" "wrong"))
                (world0 [alice]))
    = Some (mkResponse 400 (ErrorBody "Invalid email or password")).
Proof.
  split.
  - apply (loginUser_invalid_credentials toy dotenv); [reflexivity .. |].
    left. reflexivity.
  - apply (loginUser_invalid_credentials toy dotenv); [reflexivity .. |].
    right. exists alice, "wrong", "$2a$10$secret1". repeat split; reflexivity.
Defined.

(** The error recorded on the top-level span is the 401 error; the
    response says 400. *)
Lemma loginUser_wrong_password_run :
  let w := run (loginUser toy dotenv (login_request "a@x.com" "wrong"))
               (world0 [alice]) in
  status w = Some 400
  ∧ span_exceptions <$> spans w !! 0%nat
    = Some [ApiError 401 "Invalid email or password"].
Proof. split; reflexivity. Qed.

(** Beyond the two cases above: when the password in the body is not a
    string, bcrypt raises on an account that exists, and the message is
    no longer the one an unknown email gets. *)
Lemma login_password_not_a_string_run :
  let b email := obj [("email", JStr email); ("password", JNum 5)] in
  response (run (loginUser toy dotenv (plain_request (b "a@x.com"))) (world0 [alice]))
  = Some (mkResponse 400 (ErrorBody "Illegal arguments"))
  ∧ response (run (loginUser toy dotenv (plain_request (b "nobody@x.com")))
                (world0 [alice]))
    = Some (mkResponse 400 (ErrorBody "Invalid email or password")).
Proof. split; reflexivity. Qed.

Lemma CreateUser_refetch_empty_witness :
  response (run (CreateUser toy register_alice) racing_world)
  = Some (mkResponse 400 (ErrorBody "Failed to retrieve created user")).
Proof.
  eapply (CreateUser_refetch_empty toy register_alice racing_world).
  - repeat split; reflexivity.
  - reflexivity.
  - reflexivity.
  - reflexivity.
Defined.

(** The error recorded on the top-level span is the 500 error; the
    response says 400. *)
Lemma CreateUser_refetch_empty_run :
  let w := run (CreateUser toy register_alice) racing_world in
  status w = Some 400
  ∧ span_exceptions <$> spans w !! 0%nat
    = Some [ApiError 500 "Failed to retrieve created user"].
Proof. split; reflexivity. Qed.

Lemma account_vanished_witness :
  response (run (logoutUser toy (session_request alice ∅ "0")) (world0 []))
  = Some (mkResponse 400 (ErrorBody "User not found"))
  ∧ response (run (UpdateUser (session_request alice ∅ "0")) (world0 []))
    = Some (mkResponse 400 (ErrorBody "User not found"))
  ∧ response (run (deleteUser toy (session_request alice ∅ "0")) (world0 []))
    = Some (mkResponse 400 (ErrorBody "User not found")).
Proof.
  apply (account_vanished toy (session_request alice ∅ "0") 0 (world0 [])).
  - exists (delete "password" (delete "refreshToken" alice)). split; reflexivity.
  - reflexivity.
Defined.

(** The error recorded on the top-level span is the 404 error; the
    response says 400. *)
Lemma account_vanished_run :
  let w := run (deleteUser toy (session_request alice ∅ "0")) (world0 []) in
  status w = Some 400
  ∧ span_exceptions <$> spans w !! 0%nat = Some [ApiError 404 "User not found"].
Proof. split; reflexivity. Qed.

Lemma CreateUser_created_has_no_secrets_witness :
  ∃ d, response (run (CreateUser toy register_alice) (world0 []))
       = Some (mkResponse 201 (ApiResponse 201 (PDoc d) "User created successfully"))
       ∧ d !! "password" = None ∧ d !! "__v" = None.
Proof.
  destruct (CreateUser_created_has_no_secrets toy register_alice (world0 []))
    as (Hpayload & Hcreated).
  apply Hpayload, Hcreated; [repeat split | ..]; reflexivity.
Defined.

(** The scenario of the specification: alice is created, the response
    has her name and no password; the same request again is refused. *)
Lemma register_alice_twice :
  let w := run (CreateUser toy register_alice) (world0 []) in
  response w
  = Some (mkResponse 201
            (ApiResponse 201 (PDoc (delete "password" (delete "__v" alice)))
               "User created successfully"))
  ∧ users (db w) = [alice]
  ∧ response (run (CreateUser toy register_alice) (world0 [alice]))
    = Some (mkResponse 400
              (ErrorBody "User with the given username or email already exists")).
Proof. repeat split; reflexivity. Qed.

Lemma verifyJWT_outcomes_witness :
  (* no token: nothing is verified *)
  (verifyJWT toy dotenv (plain_request ∅) (world0 [alice])
   = (Throw (ApiError 401 "Unauthorized"), world0 [alice]))
  (* a token that does not verify *)
  ∧ completion (verifyJWT toy dotenv
                  (mkRequest ∅ None (Some "Bearer forged") ∅ None)) (world0 [alice])
    = Throw (ApiError 401 "invalid signature")
  (* a token of an account that is gone *)
  ∧ completion (verifyJWT toy dotenv (bearer_request ∅ "0")) (world0 [])
    = Throw (ApiError 401 "Invalid access Token")
  (* a token of alice *)
  ∧ completion (verifyJWT toy dotenv (bearer_request ∅ "0")) (world0 [alice])
    = Normal (session_request alice ∅ "0")
  ∧ verified (run (verifyJWT toy dotenv (bearer_request ∅ "0")) (world0 [alice]))
    = ["access-secret.0"].
Proof.
  pose proof (verifyJWT_outcomes toy dotenv (plain_request ∅) (world0 [alice]))
    as (Hmissing & _).
  pose proof (verifyJWT_outcomes toy dotenv
                (mkRequest ∅ None (Some "Bearer forged") ∅ None) (world0 [alice]))
    as (_ & _ & Hforged & _).
  pose proof (verifyJWT_outcomes toy dotenv (bearer_request ∅ "0") (world0 []))
    as (_ & _ & _ & Hgone & _).
  pose proof (verifyJWT_outcomes toy dotenv (bearer_request ∅ "0") (world0 [alice]))
    as (_ & Hlog & _ & _ & Hfound & _).
  repeat apply conj.
  - apply Hmissing. left. reflexivity.
  - apply (Hforged "forged" (LibError "JsonWebTokenError" "invalid signature"));
      [reflexivity | done | reflexivity].
  - apply (Hgone "access-secret.0" (obj [("_id", JId 0)]) (mkDatabase [] [] 0));
      [reflexivity | done | reflexivity | reflexivity].
  - destruct (Hfound "access-secret.0" (obj [("_id", JId 0)])
                (mkDatabase [alice] [] 1) alice)
      as (exposed & Hrun & -> & _); [reflexivity | done | reflexivity .. |].
    exact Hrun.
  - apply (Hlog "access-secret.0"); [reflexivity | done].
Defined.

Lemma UpdateUser_missing_field_witness :
  let req := session_request alice (obj [("userName", JStr "al")]) "0" in
  status (run (UpdateUser req) (world0 [alice])) = Some 400
  ∧ db (run (UpdateUser req) (world0 [alice])) = db (world0 [alice])
  ∧ response (run (UpdateUser req) (world0 [alice]))
    = Some (mkResponse 400 (ErrorBody "Username and email are required")).
Proof.
  intros req.
  destruct (UpdateUser_missing_field req 0 (world0 [alice])) as (Hs & Hdb & Hr & _).
  - exists (delete "password" (delete "refreshToken" alice)). split; reflexivity.
  - right. reflexivity.
  - split; [exact Hs | split; [exact Hdb | apply Hr; discriminate]].
Defined.

(** The same through the route, with the token in the header. *)
Lemma update_without_email_run :
  let req := bearer_request (obj [("userName", JStr "al")]) "0" in
  response (run (router toy dotenv PutUpdate req) (world0 [alice]))
  = Some (mkResponse 400 (ErrorBody "Username and email are required"))
  ∧ users (db (run (router toy dotenv PutUpdate req) (world0 [alice]))) = [alice].
Proof. split; reflexivity. Qed.

(** C8, against its reading: alice is removed by another client after
    the session middleware has found her.  Her update without [email]
    is then answered with the error about the account, not with the
    input error. *)
Lemma update_without_email_account_gone :
  let req := bearer_request (obj [("userName", JStr "al")]) "0" in
  (∃ req', completion (verifyJWT toy dotenv req) vanishing_world = Normal req'
           ∧ authenticated req' 0
           ∧ truthy (prop (body req') "email") = false
           ∧ ¬ update_refuses_missing_field req'
                 (run (verifyJWT toy dotenv req) vanishing_world))
  ∧ response (run (router toy dotenv PutUpdate req) vanishing_world)
    = Some (mkResponse 400 (ErrorBody "User not found")).
Proof.
  intros req. split; [| reflexivity].
  eexists. split; [reflexivity |]. repeat apply conj.
  - eexists. split; reflexivity.
  - reflexivity.
  - intros Hclaim.
    assert (response
              (run (UpdateUser
                      (set_user (delete "password" (delete "refreshToken" alice)) req))
                 (run (verifyJWT toy dotenv req) vanishing_world))
            = Some (mkResponse 400 (ErrorBody "User not found"))) as Hres
      by reflexivity.
    rewrite Hclaim in Hres; [discriminate Hres | |].
    + exists 0%N, (delete "password" (delete "refreshToken" alice)).
      split; reflexivity.
    + right. reflexivity.
Qed.

(** C9, against its reading: after a login of alice the account in the
    response has the [refreshToken] it had when it was fetched, [null],
    while the token this login issued is in the database. *)
Lemma login_embeds_stale_refresh_token :
  let w := run (loginUser toy dotenv (login_request "a@x.com" "secret1"))
               (world0 [alice]) in
  status w = Some 200
  ∧ ¬ embeds_issued_refresh_token w
  ∧ (λ x : Doc, x !! "refreshToken") <$> users (db w)
    = [Some (JStr "refresh-secret.0")].
Proof.
  intros w.
  assert (response w
          = Some (mkResponse 200
                    (ApiResponse 200
                       (PLogin "access-secret.0" alice "refresh-secret.0")
                       "Login successful"))) as Hw by reflexivity.
  repeat apply conj.
  - reflexivity.
  - intros (a & u & r & m & Hres & Hu).
    rewrite Hw in Hres. injection Hres as <- <- <- <-. discriminate Hu.
  - reflexivity.
Qed.

Lemma loginUser_embeds_fetched_document_witness :
  let req := login_request "a@x.com" "secret1" in
  login_fetch req (world0 [alice]) = Some alice
  ∧ (∃ p h, prop (body req) "password" = JStr p
            ∧ alice !! "password" = Some (JStr h)
            ∧ bcrypt_compare toy p h = true)
  ∧ (∀ x, x ∈ users (db (run (loginUser toy dotenv req) (world0 [alice]))) →
          has_id (prop alice "_id") x = true →
          x !! "refreshToken" = Some (JStr "refresh-secret.0")).
Proof.
  intros req.
  apply (loginUser_embeds_fetched_document toy dotenv req (world0 [alice])
           "access-secret.0" "refresh-secret.0" "Login successful" alice).
  reflexivity.
Defined.

(** C4, against its reading: alice, marked as deleted, logs in, and the
    routes behind the session middleware run for her. *)
Lemma deleted_account_logs_in :
  alice_deleted !! "isDeleted" = Some (JBool true)
  ∧ ¬ login_refuses_deleted toy dotenv (login_request "a@x.com" "secret1")
        (world0 [alice_deleted])
  ∧ status (run (router toy dotenv PutUpdate
                   (bearer_request (obj [("userName", JStr "al");
                                         ("email", JStr "al@x.com")]) "0"))
              (world0 [alice_deleted]))
    = Some 200
  ∧ (λ x : Doc, x !! "userName")
      <$> users (db (run (router toy dotenv PutUpdate
                            (bearer_request (obj [("userName", JStr "al");
                                                  ("email", JStr "al@x.com")]) "0"))
                       (world0 [alice_deleted])))
    = [Some (JStr "al")].
Proof.
  repeat apply conj; try reflexivity.
  intros Hclaim. apply (Hclaim alice_deleted); reflexivity.
Qed.

Lemma soft_deleted_account_is_served_witness :
  let w := world0 [alice_deleted] in
  (∃ a r, response (run (loginUser toy dotenv (login_request "a@x.com" "secret1")) w)
          = Some (mkResponse 200
                    (ApiResponse 200 (PLogin a alice_deleted r) "Login successful")))
  ∧ completion (verifyJWT toy dotenv (bearer_request ∅ "0")) w
    = Normal (set_user (delete "password" (delete "refreshToken" alice_deleted))
                (bearer_request ∅ "0"))
  ∧ status (run (logoutUser toy (session_request alice_deleted ∅ "0")) w) = Some 200
  ∧ status (run (deleteUser toy (session_request alice_deleted ∅ "0")) w) = Some 200
  ∧ status (run (UpdateUser
                   (session_request alice_deleted (obj [("userName", JStr "al");
                                          ("email", JStr "al@x.com")]) "0")) w)
    = Some 200.
Proof.
  intros w.
  destruct (soft_deleted_account_is_served toy dotenv w alice_deleted 0)
    as (Hlogin & Hsession & Hops); [reflexivity .. |].
  repeat apply conj.
  - apply (Hlogin _ "secret1" "$2a$10$secret1"); reflexivity.
  - apply (Hsession _ "access-secret.0" (obj [("_id", JId 0)]));
      [reflexivity | done | reflexivity ..].
  - destruct (Hops (session_request alice_deleted ∅ "0")) as (Hlogout & _); [| reflexivity | exact Hlogout].
    exists (delete "password" (delete "refreshToken" alice_deleted)). split; reflexivity.
  - destruct (Hops (session_request alice_deleted ∅ "0")) as (_ & Hdelete & _);
      [| reflexivity | exact Hdelete].
    exists (delete "password" (delete "refreshToken" alice_deleted)). split; reflexivity.
  - destruct (Hops (session_request alice_deleted (obj [("userName", JStr "al");
                                          ("email", JStr "al@x.com")]) "0"))
      as (_ & _ & Hupdate); [| reflexivity |].
    + exists (delete "password" (delete "refreshToken" alice_deleted)). split; reflexivity.
    + eapply Hupdate; reflexivity.
Defined.

Lemma caller_id_decides_witness :
  let req := session_request alice (obj [("userName", JStr "al");
                                   ("email", JStr "al@x.com")]) "999" in
  (* the route says 999, the caller is 0: the account 0 is the one updated *)
  (∀ d m, response (run (UpdateUser req) (world0 [alice]))
          = Some (mkResponse 200 (ApiResponse 200 (PDoc d) m)) →
          d !! "_id" = Some (JId 0))
  ∧ status (run (UpdateUser req) (world0 [alice])) = Some 200
  ∧ UpdateUser (set_params {[ "id" := "0" ]} req) (world0 [alice])
    = UpdateUser req (world0 [alice]).
Proof.
  intros req.
  destruct (caller_id_decides toy dotenv req 0 (world0 [alice]))
    as (Hparams & _ & _ & Hupdate & _).
  - exists (delete "password" (delete "refreshToken" alice)). split; reflexivity.
  - destruct (Hparams {[ "id" := "0" ]}) as (Hsame & _).
    split; [exact Hupdate | split; [reflexivity | exact Hsame]].
Defined.

(** ** The further properties, run *)

Lemma top_span_ended_once_witness :
  ends_of (run (loginUser toy dotenv (login_request "a@x.com" "wrong")) (world0 [alice])) 0
  = Some 1%nat
  ∧ ends_of (run (CreateUser toy register_alice) (world0 [alice])) 0 = Some 1%nat.
Proof.
  split.
  - apply (top_span_ended_once toy dotenv LoginOp). left. discriminate.
  - apply (top_span_ended_once toy dotenv Create). right. reflexivity.
Defined.

Lemma missing_fields_refused_witness :
  let req := plain_request (obj [("email", JStr "a@x.com"); ("password", JStr "")]) in
  (response (run (CreateUser toy req) (world0 [alice]))
   = Some (mkResponse 400 (ErrorBody "Username, email, and password are required"))
   ∧ db (run (CreateUser toy req) (world0 [alice])) = db (world0 [alice]))
  ∧ (response (run (loginUser toy dotenv req) (world0 [alice]))
     = Some (mkResponse 400 (ErrorBody "Email and password are required"))
     ∧ db (run (loginUser toy dotenv req) (world0 [alice])) = db (world0 [alice])).
Proof.
  intros req.
  destruct (missing_fields_refused toy dotenv req (world0 [alice])) as (Hcreate & Hlogin).
  split; [apply Hcreate | apply Hlogin]; reflexivity.
Defined.

Lemma CreateUser_duplicate_refused_witness :
  response (run (CreateUser toy register_alice) (world0 [alice]))
  = Some (mkResponse 400
            (ErrorBody "User with the given username or email already exists"))
  ∧ db (run (CreateUser toy register_alice) (world0 [alice])) = db (world0 [alice]).
Proof.
  apply (CreateUser_duplicate_refused toy register_alice (world0 [alice]) alice).
  - repeat split; reflexivity.
  - reflexivity.
Defined.

Lemma accounts_kept_witness :
  let req := session_request alice ∅ "0" in
  ∃ k, same_ids (users (Nat.iter k tick (db (world0 [alice]))))
         (users (db (run (operation toy dotenv DeleteOp req) (world0 [alice]))))
       ∧ (DeleteOp ≠ UpdateOp →
          same_accounts (users (Nat.iter k tick (db (world0 [alice]))))
            (users (db (run (operation toy dotenv DeleteOp req) (world0 [alice]))))).
Proof.
  intros req. apply (accounts_kept toy dotenv DeleteOp req (world0 [alice])).
  discriminate.
Defined.

Lemma logoutUser_clears_refresh_token_witness :
  let w := world0 [<["refreshToken" := JStr "refresh-secret.0"]> alice] in
  let req := session_request alice ∅ "0" in
  (∃ x, x ∈ users (db (run (logoutUser toy req) w)) ∧ has_id (JId 0) x = true)
  ∧ (∀ x, x ∈ users (db (run (logoutUser toy req) w)) →
          has_id (JId 0) x = true → x !! "refreshToken" = Some JNull).
Proof.
  intros w req. apply (logoutUser_clears_refresh_token toy req 0 w).
  - exists (delete "password" (delete "refreshToken" alice)). split; reflexivity.
  - reflexivity.
Defined.

Lemma deleteUser_keeps_the_document_witness :
  let req := session_request alice ∅ "0" in
  (∃ x, x ∈ users (db (run (deleteUser toy req) (world0 [alice])))
        ∧ has_id (JId 0) x = true)
  ∧ (∀ x, x ∈ users (db (run (deleteUser toy req) (world0 [alice]))) →
          has_id (JId 0) x = true →
          x !! "deletedAt" = Some (JDate (clock (world0 [alice])))).
Proof.
  intros req. apply (deleteUser_keeps_the_document toy req 0 (world0 [alice])).
  - exists (delete "password" (delete "refreshToken" alice)). split; reflexivity.
  - reflexivity.
Defined.

Lemma UpdateUser_writes_and_answers_witness :
  let req := session_request alice (obj [("userName", JStr "al");
                                         ("email", JStr "al@x.com")]) "0" in
  ∃ stored,
    (∀ x, x ∈ users (db (run (UpdateUser req) (world0 [alice]))) →
          has_id (JId 0) x = true → x = stored)
    ∧ stored !! "userName" = Some (JStr "al")
    ∧ stored !! "email" = Some (JStr "al@x.com")
    ∧ stored !! "lastUpdate" = Some (JDate (clock (world0 [alice])))
    ∧ response (run (UpdateUser req) (world0 [alice]))
      = Some (mkResponse 200
                (ApiResponse 200 (PDoc (delete "password" (delete "__v" stored)))
                   "User updated successfully")).
Proof.
  intros req.
  apply (UpdateUser_writes_and_answers req 0 (world0 [alice]) "al" "al@x.com").
  - exists (delete "password" (delete "refreshToken" alice)). split; reflexivity.
  - reflexivity.
  - reflexivity.
  - reflexivity.
Defined.

Lemma generateAccessAndRefreshTokens_outcomes_witness :
  (∃ account,
     caller_fetch (JId 0) (world0 [alice]) = Some account
     ∧ generateAccessToken toy dotenv account (world0 [alice])
       = (Normal "access-secret.0", world0 [alice])
     ∧ generateRefreshToken toy dotenv account (world0 [alice])
       = (Normal "refresh-secret.0", world0 [alice])
     ∧ ∀ x, x ∈ users (db (run (generateAccessAndRefreshTokens toy dotenv (JId 0))
                             (world0 [alice]))) →
            has_id (JId 0) x = true →
            x !! "refreshToken" = Some (JStr "refresh-secret.0"))
  ∧ completion (generateAccessAndRefreshTokens toy dotenv (JId 7)) (world0 [alice])
    = Throw (ApiError 500 "Error generating access and refresh tokens").
Proof.
  destruct (generateAccessAndRefreshTokens_outcomes toy dotenv (JId 0) (world0 [alice]))
    as (_ & Hissued).
  destruct (generateAccessAndRefreshTokens_outcomes toy dotenv (JId 7) (world0 [alice]))
    as (Hfailed & _).
  split.
  - apply Hissued. reflexivity.
  - assert (∃ e, completion (generateAccessAndRefreshTokens toy dotenv (JId 7))
                     (world0 [alice]) = Throw e) as [e He]
      by (eexists; reflexivity).
    rewrite He. f_equal. exact (Hfailed e He).
Defined.

Lemma request_token_sources_witness :
  request_token cookie_request = Some "from-cookie"
  ∧ request_token (bearer_request ∅ "0") = Some "access-secret.0"
  ∧ request_token (plain_request ∅) = None.
Proof.
  destruct (request_token_sources cookie_request "from-cookie") as (Hcookie & _).
  destruct (request_token_sources (bearer_request ∅ "0") "access-secret.0")
    as (_ & Hheader).
  destruct (request_token_sources (plain_request ∅) "") as (_ & Hnone).
  repeat apply conj.
  - apply (Hcookie {[ "accessToken" := "from-cookie" ]}); done.
  - destruct Hheader as (Hbearer & _); [by left |]. by apply Hbearer.
  - destruct Hnone as (_ & Habsent); [by left |]. by apply Habsent.
Defined.

Lemma verifyJWT_reads_only_witness :
  completion (router toy dotenv PutUpdate (plain_request ∅)) (world0 [alice])
  = Throw (ApiError 401 "Unauthorized")
  ∧ run (router toy dotenv PutUpdate (plain_request ∅)) (world0 [alice])
    = run (verifyJWT toy dotenv (plain_request ∅)) (world0 [alice])
  ∧ statusCode (ApiError 401 "Unauthorized") = Some 401.
Proof.
  destruct (verifyJWT_reads_only toy dotenv (plain_request ∅) (world0 [alice]))
    as (_ & Hrejected).
  apply (Hrejected (ApiError 401 "Unauthorized") PutUpdate); [reflexivity |].
  right. by left.
Defined.


Lemma register_then_login_witness :
  let w1 := run (CreateUser toy register_alice) (world0 []) in
  status w1 = Some 201
  ∧ (∃ doc, users (db w1) = users (db (world0 [])) ++ [doc]
            ∧ doc !! "email" = Some (JStr "a@x.com")
            ∧ doc !! "password" = Some (JStr (bcrypt_hash toy "secret1" 10)))
  ∧ status (run (loginUser toy dotenv (login_request "a@x.com" "secret1")) w1)
    = Some 200.
Proof.
  apply (register_then_login toy dotenv register_alice
           (login_request "a@x.com" "secret1") (world0 []) "a@x.com" "secret1");
    done.
Defined.

Lemma loginUser_token_failure_witness :
  let req := login_request "a@x.com" "secret1" in
  response (run (loginUser toy dotenv req) vanishing_world)
  = Some (mkResponse 400 (ErrorBody "Error generating access and refresh tokens"))
  ∧ span_exceptions <$> top_span vanishing_world (run (loginUser toy dotenv req) vanishing_world)
    = Some [ApiError 500 "Error generating access and refresh tokens"].
Proof.
  intros req.
  apply (loginUser_token_failure toy dotenv req vanishing_world alice 0
           "secret1" "$2a$10$secret1"); reflexivity.
Defined.

Lemma operations_read_witness :
  logoutUser toy (session_request alice ∅ "0") (world0 [alice])
  = logoutUser toy (session_request alice (obj [("userName", JStr "al")]) "9") (world0 [alice]).
Proof.
  destruct (operations_read toy dotenv (session_request alice ∅ "0")
              (session_request alice (obj [("userName", JStr "al")]) "9")
              (world0 [alice])) as (_ & Hcaller & _).
  destruct Hcaller as (Hlogout & _); [reflexivity | exact Hlogout].
Defined.
